(** * bskyTools: list synchronisation against the Bluesky service

    A shallow embedding of [src/bsky_list_tool/bskylisttool.py] and of the
    scripts [scratch/bskyMassLister.py] and [bskyListBackup.py].

    - Python [str] values are [string]s; a character is a code point below
      256 (handles, DIDs and URLs are ASCII).
    - The atproto client, the identity resolver, the configuration parser
      and the system clock are external: they are gathered in a record
      [Service] whose answers may depend on the requests issued so far.
    - Methods run in a state-and-exception monad over a [World]: the files,
      the log of requests sent so far, and the number of clock readings.
    - A file is held under the path the program names it by, on a POSIX
      system.  Reading is in text mode: a carriage return, alone or before
      a line feed, is read as a line feed.  Opening for writing can be
      refused by the system, which is part of the [Service]; what is
      written is stored as it is.
    - A [while True] loop takes a fuel argument; [None] means the fuel ran
      out, which is not a Python outcome. *)

From Stdlib Require Import Ascii String List Arith Lia.
From stdpp Require Import base option list strings gmap.

Import ListNotations.
Open Scope string_scope.
Open Scope list_scope.

(** ** Python string primitives *)

Module PyStr.

(** [str.isspace] on one character, for code points below 256:
    U+0009..U+000D, U+001C..U+001F, U+0020, U+0085 and U+00A0. *)
Definition isspace (c : ascii) : bool :=
  let n := nat_of_ascii c in
  (((9 <=? n) && (n <=? 13)) || ((28 <=? n) && (n <=? 32))
   || (n =? 133) || (n =? 160))%nat.

(** [s.lstrip()] *)
Fixpoint lstrip (s : string) : string :=
  match s with
  | EmptyString => EmptyString
  | String c s' => if isspace c then lstrip s' else s
  end.

(** [s.rstrip()] *)
Fixpoint rstrip (s : string) : string :=
  match s with
  | EmptyString => EmptyString
  | String c s' =>
      match rstrip s' with
      | EmptyString => if isspace c then EmptyString else String c EmptyString
      | r => String c r
      end
  end.

(** [s.strip()] *)
Definition strip (s : string) : string := lstrip (rstrip s).

(** Truth value of a string: [if s:] *)
Definition truthy (s : string) : bool :=
  match s with EmptyString => false | _ => true end.

(** [s.startswith(p)] *)
Fixpoint startswith (p s : string) : bool :=
  match p, s with
  | EmptyString, _ => true
  | String a p', String b s' => Ascii.eqb a b && startswith p' s'
  | String _ _, EmptyString => false
  end.

(** [s[1::]] *)
Definition slice_from_1 (s : string) : string :=
  match s with EmptyString => EmptyString | String _ s' => s' end.

(** [s.split(sep)] for a one-character separator. *)
Fixpoint split (sep : ascii) (s : string) : list string :=
  match s with
  | EmptyString => [EmptyString]
  | String c s' =>
      if Ascii.eqb c sep then EmptyString :: split sep s'
      else match split sep s' with
           | h :: t => String c h :: t
           | [] => [String c EmptyString]
           end
  end.

(** [sep.join(l)] for a one-character separator (used to state what
    [split] computes). *)
Fixpoint join (sep : ascii) (l : list string) : string :=
  match l with
  | [] => EmptyString
  | [x] => x
  | x :: rest => x +:+ String sep (join sep rest)
  end.

(** [l[i]] on a list: [None] stands for Python's IndexError. *)
Definition index {A} (l : list A) (i : nat) : option A := nth_error l i.

Definition LF : ascii := "010"%char.
Definition CR : ascii := "013"%char.

(** Reading a text file with the default [newline=None]: a carriage
    return, alone or followed by a line feed, is read as one line feed. *)
Fixpoint universal_newlines (after_cr : bool) (s : string) : string :=
  match s with
  | EmptyString => EmptyString
  | String c s' =>
      if Ascii.eqb c CR then String LF (universal_newlines true s')
      else if Ascii.eqb c LF && after_cr then universal_newlines false s'
      else String c (universal_newlines false s')
  end.

(** The lines of a text, each with its line feed (the last one may lack it). *)
Fixpoint keepends (s : string) : list string :=
  match s with
  | EmptyString => []
  | String c s' =>
      if Ascii.eqb c LF then String c EmptyString :: keepends s'
      else match keepends s' with
           | [] => [String c EmptyString]
           | l :: ls => String c l :: ls
           end
  end.

(** [for line in f] over a file opened in text mode. *)
Definition file_lines (text : string) : list string :=
  keepends (universal_newlines false text).

(** Every character of [s] is white space. *)
Fixpoint all_space (s : string) : bool :=
  match s with
  | EmptyString => true
  | String c s' => isspace c && all_space s'
  end.

(** The last character of [s], if any. *)
Fixpoint last_char (s : string) : option ascii :=
  match s with
  | EmptyString => None
  | String c EmptyString => Some c
  | String _ s' => last_char s'
  end.

(** The number of times [c] stands at the start of [s]. *)
Fixpoint leading (c : ascii) (s : string) : nat :=
  match s with
  | EmptyString => 0
  | String a s' => if Ascii.eqb a c then S (leading c s') else 0
  end.

(** [str(Path(s))] on a POSIX system: one or at least three leading
    slashes make the root [/], exactly two make [//]; the empty segments
    and the segments [.] are dropped; what is left is joined by [/]; and
    the path with neither root nor segment is [.]. *)
Definition path_str (s : string) : string :=
  let root :=
    match leading "/" s with
    | 0 => EmptyString
    | 2 => "//"
    | _ => "/"
    end in
  let parts :=
    List.filter (fun x => negb (String.eqb x "") && negb (String.eqb x "."))
                (split "/" s) in
  match root, parts with
  | EmptyString, [] => "."
  | _, _ => root +:+ join "/" parts
  end.

End PyStr.

(** ** Exceptions, service and world *)

(** The exceptions the code raises itself or lets through.  [External]
    stands for any exception class of a library (transport failures and
    the like), named by its class. *)
Inductive exn : Type :=
| TypeError
| ValueError (message : string)
| FileNotFoundError (message : string)
| IndexError
| ListNotFoundException (message : string)
| NoOptionError
| ValidationError
| External (class : string)
| IsADirectoryError.

Inductive outcome (A : Type) : Type :=
| Ret (a : A)
| Raise (e : exn).
Arguments Ret {A} a.
Arguments Raise {A} e.

(** Response models of the service, with the fields the code reads. *)
Record ListView := { lv_name : string; lv_uri : string }.
Record ProfileView := { pv_did : string; pv_handle : string }.
Record ListItemView := { li_uri : string; li_subject : ProfileView }.
Record Like := { like_actor : ProfileView; like_created_at : string }.

Record GetListsResponse :=
  { ls_lists : list ListView; ls_cursor : option string }.
Record GetListResponse :=
  { gl_items : list ListItemView; gl_cursor : option string }.
Record GetFollowersResponse :=
  { gf_followers : list ProfileView; gf_cursor : option string }.
Record GetLikesResponse :=
  { lk_likes : list Like; lk_cursor : option string }.

(** [models.AppBskyGraphListitem.Record] *)
Record ListitemRecord :=
  { rec_list : string; rec_subject : string; rec_created_at : string }.

(** What is sent to the outside, in the order it is sent. *)
Inductive request : Type :=
| Login (login : string) (password : option string)
| LoginSession (session_string : string)
| GetLists (actor : string) (limit : option nat) (cursor : option string)
| GetList (list : string) (limit : option nat) (cursor : option string)
| GetFollowers (actor : string) (limit : option nat) (cursor : option string)
| GetLikes (uri : string) (limit : option nat) (cursor : option string)
| ResolveHandle (handle : string)
| IdResolve (handle : string)
| CreateListitem (repo : string) (record : ListitemRecord)
| RawGet (url : string).

(** The external collaborators.  The first argument of a network answer
    is the list of requests issued before this one. *)
Record Service := {
  srv_login : list request -> string -> option string -> outcome unit;
  srv_login_session : list request -> string -> outcome unit;
  srv_get_lists :
    list request -> string -> option nat -> option string -> outcome GetListsResponse;
  srv_get_list :
    list request -> string -> option nat -> option string -> outcome GetListResponse;
  srv_get_followers :
    list request -> string -> option nat -> option string -> outcome GetFollowersResponse;
  srv_get_likes :
    list request -> string -> option nat -> option string -> outcome GetLikesResponse;
  (** [client.resolve_handle(h).did] *)
  srv_resolve_handle : list request -> string -> outcome string;
  (** [IdResolver().handle.resolve(h)], an [Optional[str]] *)
  srv_id_resolve : list request -> string -> outcome (option string);
  srv_create_listitem : list request -> string -> ListitemRecord -> outcome unit;
  (** [client.request.get(url).content['lists']] *)
  srv_raw_get_lists : list request -> string -> outcome (list ListView);
  (** [client.export_session_string()] *)
  srv_export_session_string : list request -> string;
  (** the n-th reading of the clock, as [get_current_time_iso] formats it *)
  srv_clock : nat -> string;
  (** [ConfigParser.read_string(text)]: [Some e] when parsing raises [e] *)
  cfg_read_string : string -> option exn;
  (** [config.get(section, option)] after [read_string(text)] *)
  cfg_get : string -> string -> string -> outcome string;
  (** [open(path, 'w')]: [Some e] when the system refuses with [e] (a
      directory that is not there, a path that is a directory, an empty
      name, a lack of rights) *)
  os_open_w : string -> option exn
}.

Record World := {
  fs : gmap string string;     (** the text of every existing file *)
  log : list request;          (** the requests issued so far *)
  ticks : nat                  (** the clock readings taken so far *)
}.

Definition set_fs (f : gmap string string -> gmap string string) (w : World) : World :=
  {| fs := f (fs w); log := log w; ticks := ticks w |}.
Definition add_log (r : request) (w : World) : World :=
  {| fs := fs w; log := log w ++ [r]; ticks := ticks w |}.
Definition tick (w : World) : World :=
  {| fs := fs w; log := log w; ticks := S (ticks w) |}.

(** ** The monad of methods *)

Definition M (A : Type) : Type := World -> outcome A * World.

#[global] Instance M_ret : MRet M := fun A a w => (Ret a, w).
#[global] Instance M_bind : MBind M := fun A B f m w =>
  match m w with
  | (Ret a, w') => f a w'
  | (Raise e, w') => (Raise e, w')
  end.

Definition raise {A} (e : exn) : M A := fun w => (Raise e, w).

(** One request: it is logged, and answered from the requests before it. *)
Definition send {A} (r : request) (answer : list request -> outcome A) : M A :=
  fun w => (answer (log w), add_log r w).

(** [for x in l: body(x)] *)
Fixpoint for_each {A} (body : A -> M unit) (l : list A) : M unit :=
  match l with
  | [] => mret tt
  | x :: rest => body x ;; for_each body rest
  end.

(** [Path(file)]; [Path(None)] raises TypeError. *)
Definition Path (file : option string) : M string :=
  match file with
  | Some p => mret p
  | None => raise TypeError
  end.

(** [path.exists()] *)
Definition path_exists (path : string) : M bool :=
  fun w => (Ret (bool_decide (is_Some (fs w !! path))), w).

(** [open(path, 'r').read()] *)
Definition read_file (path : string) : M string :=
  fun w => match fs w !! path with
           | Some text => (Ret text, w)
           | None => (Raise (FileNotFoundError path), w)
           end.

(** [open(path, 'r').read()] in text mode: a carriage return, alone or
    followed by a line feed, is read as one line feed. *)
Definition read_text (path : string) : M string :=
  text ← read_file path; mret (PyStr.universal_newlines false text).

(** [open(path, 'w')]: the system refuses, or the file is created or
    emptied. *)
Definition open_w (svc : Service) (path : string) : M unit :=
  fun w => match os_open_w svc path with
           | Some e => (Raise e, w)
           | None => (Ret tt, set_fs (insert path "") w)
           end.

(** [f.write(s)] on a file opened by [open_w]. *)
Definition write (path : string) (s : string) : M unit :=
  fun w => (Ret tt, set_fs (fun m => <[path := default "" (m !! path) +:+ s]> m) w).

(** [client.get_current_time_iso()] *)
Definition get_current_time_iso (svc : Service) : M string :=
  fun w => (Ret (srv_clock svc (ticks w)), tick w).

(** [l[i]], raising IndexError out of range. *)
Definition getitem {A} (l : list A) (i : nat) : M A :=
  match PyStr.index l i with
  | Some x => mret x
  | None => raise IndexError
  end.

Definition NL : string := String PyStr.LF EmptyString.

(** ** src/bsky_list_tool/bskylisttool.py *)

Module bskylisttool.

(** The fields of [self]; [self.client] and [self.resolver] are the
    [Service]. *)
Record BskyListTool := { token_file : option string; handle : string }.

(** [_parse_config_file]: only [NoOptionError] is caught, and it ends the
    [try] block where it occurs. *)
Definition _parse_config_file (svc : Service) (file : string)
  : M (option string * option string) :=
  text ← read_text file;
  let text := "[top]" +:+ NL +:+ text in
  match cfg_read_string svc text with
  | Some e => raise e
  | None =>
      match cfg_get svc text "top" "my_handle" with
      | Raise NoOptionError => mret (None, None)
      | Raise e => raise e
      | Ret h =>
          match cfg_get svc text "top" "app_password" with
          | Raise NoOptionError => mret (Some h, None)
          | Raise e => raise e
          | Ret p => mret (Some h, Some p)
          end
      end
  end.

(** [_read_token_from_file] *)
Definition _read_token_from_file (file : option string) : M (option string) :=
  file ← Path file;
  ex ← path_exists file;
  if ex : bool then token ← read_text file; mret (Some token)
  else mret None.

(** Lines 22 to 25 of [__init__]: the handle and the password read from
    the credential file, when it exists. *)
Definition file_credentials (svc : Service) (cred_file : string)
  : M (option string * option string) :=
  ex ← path_exists cred_file;
  if ex : bool then _parse_config_file svc cred_file
  else mret (None, None).

(** [__init__] *)
Definition __init__ (svc : Service) (handle password : option string)
    (cred_file token_file : option string) : M BskyListTool :=
  token ← _read_token_from_file token_file;
  cred_file ← Path cred_file;
  '(file_handle, file_pw) ← file_credentials svc cred_file;
  handle ←
    match handle with
    | None =>
        match file_handle with
        | None => raise (ValueError "A bsky-handle was needed, but none was provided.")
        | Some h => mret h
        end
    | Some h => mret h
    end;
  password ←
    match password with
    | None =>
        match file_pw with
        | None => raise (ValueError "An app password is needed, but none was provided")
        | Some p => mret p
        end
    | Some p => mret p
    end;
  let self := {| token_file := token_file; handle := handle |} in
  match token with
  | None =>
      send (Login handle (Some password))
           (fun h => srv_login svc h handle (Some password)) ;;
      mret self
  | Some token =>
      send (LoginSession token) (fun h => srv_login_session svc h token) ;;
      mret self
  end.

(** [save_token] *)
Definition save_token (svc : Service) (self : BskyListTool) : M unit :=
  fun w =>
    let token := srv_export_session_string svc (log w) in
    match token_file self with
    | None => (Raise TypeError, w)
    | Some path => (open_w svc path ;; write path token) w
    end.

(** The first list named [listname], as the [for ... break ... else] of
    [_get_list_uri] finds it. *)
Fixpoint scan_lists (listname : string) (lists : list ListView) : option string :=
  match lists with
  | [] => None
  | l :: rest =>
      if String.eqb (lv_name l) listname then Some (lv_uri l)
      else scan_lists listname rest
  end.

(** [_get_list_uri] *)
Definition _get_list_uri (svc : Service) (listname owner : string) : M string :=
  response ← send (GetLists owner None None)
                  (fun h => srv_get_lists svc h owner None None);
  match scan_lists listname (ls_lists response) with
  | Some uri => mret uri
  | None =>
      raise (ListNotFoundException
               ("List with name " +:+ listname +:+ " could not be found."))
  end.

(** [_link_to_at_uri] *)
Definition _link_to_at_uri (svc : Service) (link : string) : M string :=
  let http_url := PyStr.split "/" link in
  profile ← getitem http_url 4;
  rkey ← getitem http_url 6;
  did ← send (ResolveHandle profile) (fun h => srv_resolve_handle svc h profile);
  mret ("at://" +:+ did +:+ "/app.bsky.feed.post/" +:+ rkey).

(** Lines 87 to 91 of [add_file_to_list]: what becomes of a line that is
    not blank.  The result is the resolver's [Optional[str]]. *)
Definition normalize (svc : Service) (line : string) : M (option string) :=
  let line := PyStr.rstrip line in
  let line := if PyStr.startswith "@" line then PyStr.slice_from_1 line else line in
  if negb (PyStr.startswith "did:" line)
  then send (IdResolve line) (fun h => srv_id_resolve svc h line)
  else mret (Some line).

(** Lines 92 to 99: the arguments are evaluated (clock included), the
    record is built and validated, then the request goes out. *)
Definition create_listitem (svc : Service) (self : BskyListTool)
    (uri : string) (line : option string) : M unit :=
  created_at ← get_current_time_iso svc;
  match line with
  | None => raise ValidationError
  | Some subject =>
      let record := {| rec_list := uri; rec_subject := subject;
                       rec_created_at := created_at |} in
      send (CreateListitem (handle self) record)
           (fun h => srv_create_listitem svc h (handle self) record)
  end.

(** The body of [for line in f] (lines 86 to 99). *)
Definition add_line (svc : Service) (self : BskyListTool) (uri : string)
    (line : string) : M unit :=
  if PyStr.truthy (PyStr.strip line)
  then subject ← normalize svc line; create_listitem svc self uri subject
  else mret tt.

(** [add_file_to_list].  The argument is turned into a [Path] first: the
    message shows [str(Path(file))], and the current directory, which
    [Path('')] and [Path('.')] are, exists although it is no file, so that
    it is the opening that fails then. *)
Definition add_file_to_list (svc : Service) (self : BskyListTool)
    (listname file : string) : M unit :=
  let shown := PyStr.path_str file in
  let here := String.eqb shown "." in
  ex ← path_exists file;
  if negb (ex || here)
  then raise (FileNotFoundError ("File " +:+ shown +:+ " could not be found."))
  else
    uri ← _get_list_uri svc listname (handle self);
    text ← (if ex : bool then read_file file else raise IsADirectoryError);
    for_each (add_line svc self uri) (PyStr.file_lines text).

(** The three loops [while True: ... if cursor is None: break].  Fuel
    bounds the number of iterations; [None] is fuel exhaustion. *)
Fixpoint backup_list_loop (svc : Service) (uri file : string) (fuel : nat)
    (cursor : option string) (w : World) : option (outcome unit * World) :=
  match fuel with
  | 0 => None
  | S fuel =>
      match send (GetList uri (Some 100) cursor)
                 (fun h => srv_get_list svc h uri (Some 100) cursor) w with
      | (Raise e, w) => Some (Raise e, w)
      | (Ret bskylist, w) =>
          let cursor := gl_cursor bskylist in
          match for_each (fun entry => write file (pv_did (li_subject entry) +:+ NL))
                         (gl_items bskylist) w with
          | (Raise e, w) => Some (Raise e, w)
          | (Ret _, w) =>
              match cursor with
              | None => Some (Ret tt, w)
              | Some _ => backup_list_loop svc uri file fuel cursor w
              end
          end
      end
  end.

Fixpoint get_followers_loop (svc : Service) (handle file : string) (fuel : nat)
    (cursor : option string) (w : World) : option (outcome unit * World) :=
  match fuel with
  | 0 => None
  | S fuel =>
      match send (GetFollowers handle (Some 100) cursor)
                 (fun h => srv_get_followers svc h handle (Some 100) cursor) w with
      | (Raise e, w) => Some (Raise e, w)
      | (Ret followers, w) =>
          let cursor := gf_cursor followers in
          match for_each (fun follower => write file (pv_did follower +:+ NL))
                         (gf_followers followers) w with
          | (Raise e, w) => Some (Raise e, w)
          | (Ret _, w) =>
              match cursor with
              | None => Some (Ret tt, w)
              | Some _ => get_followers_loop svc handle file fuel cursor w
              end
          end
      end
  end.

Fixpoint get_likes_loop (svc : Service) (at_uri file : string) (fuel : nat)
    (cursor : option string) (w : World) : option (outcome unit * World) :=
  match fuel with
  | 0 => None
  | S fuel =>
      match send (GetLikes at_uri (Some 100) cursor)
                 (fun h => srv_get_likes svc h at_uri (Some 100) cursor) w with
      | (Raise e, w) => Some (Raise e, w)
      | (Ret response, w) =>
          let cursor := lk_cursor response in
          match for_each (fun like => write file (pv_did (like_actor like) +:+ NL))
                         (lk_likes response) w with
          | (Raise e, w) => Some (Raise e, w)
          | (Ret _, w) =>
              match cursor with
              | None => Some (Ret tt, w)
              | Some _ => get_likes_loop svc at_uri file fuel cursor w
              end
          end
      end
  end.

(** A method that ends with one of the loops: the steps before it, then
    the opening of the output file, then the loop. *)
Definition then_loop {A} (svc : Service) (before : M A)
    (loop : A -> World -> option (outcome unit * World)) (file : string)
    (w : World) : option (outcome unit * World) :=
  match before w with
  | (Raise e, w) => Some (Raise e, w)
  | (Ret a, w) =>
      match open_w svc file w with
      | (Raise e, w) => Some (Raise e, w)
      | (Ret _, w) => loop a w
      end
  end.

(** [backup_list] *)
Definition backup_list (svc : Service) (fuel : nat) (listname owner file : string)
  : World -> option (outcome unit * World) :=
  then_loop svc (_get_list_uri svc listname owner)
            (fun uri => backup_list_loop svc uri file fuel None) file.

(** [get_followers] *)
Definition get_followers (svc : Service) (fuel : nat) (handle file : string)
  : World -> option (outcome unit * World) :=
  then_loop svc (mret tt) (fun _ => get_followers_loop svc handle file fuel None) file.

(** [get_likes] *)
Definition get_likes (svc : Service) (fuel : nat) (post_url file : string)
  : World -> option (outcome unit * World) :=
  then_loop svc (_link_to_at_uri svc post_url)
            (fun at_uri => get_likes_loop svc at_uri file fuel None) file.

End bskylisttool.

(** ** scratch/bskyMassLister.py *)

Module bskyMassLister.

Definition BSKY_API_URL : string := "https://public.api.bsky.app".
Definition BSKY_HANDLE : string := "chaosbengel.de".
Definition TARGET_LIST : string := "Hatespam".

(** [add_user_to_list] *)
Definition add_user_to_list (svc : Service) (did : option string)
    (list_uri : string) : M unit :=
  created_at ← get_current_time_iso svc;
  match did with
  | None => raise ValidationError
  | Some subject =>
      let record := {| rec_list := list_uri; rec_subject := subject;
                       rec_created_at := created_at |} in
      send (CreateListitem BSKY_HANDLE record)
           (fun h => srv_create_listitem svc h BSKY_HANDLE record)
  end.

(** [get_user_did] *)
Definition get_user_did (svc : Service) (handle : string) : M (option string) :=
  send (IdResolve handle) (fun h => srv_id_resolve svc h handle).

(** The scan of [get_list_uri]: it compares with [TARGET_LIST], not with
    its argument. *)
Fixpoint scan_target_list (lists : list ListView) : option string :=
  match lists with
  | [] => None
  | l :: rest =>
      if String.eqb (lv_name l) TARGET_LIST then Some (lv_uri l)
      else scan_target_list rest
  end.

(** [get_list_uri] *)
Definition get_list_uri (svc : Service) (list_name : string) : M string :=
  let url := BSKY_API_URL +:+ "/xrpc/app.bsky.graph.getLists?actor=" +:+ BSKY_HANDLE in
  lists ← send (RawGet url) (fun h => srv_raw_get_lists svc h url);
  match scan_target_list lists with
  | Some list_uri => mret list_uri
  | None =>
      raise (ListNotFoundException
               ("Liste " +:+ TARGET_LIST +:+ " konnte nicht gefunden werden."))
  end.

(** Lines 58 to 62 of [main]: what becomes of an entry that is not blank. *)
Definition normalize_entry (svc : Service) (entry : string) : M (option string) :=
  let entry := PyStr.rstrip entry in
  let entry := if PyStr.startswith "@" entry then PyStr.slice_from_1 entry else entry in
  if negb (PyStr.startswith "did:" entry)
  then get_user_did svc entry
  else mret (Some entry).

(** The body of [for entry in f] (lines 57 to 63). *)
Definition add_entry (svc : Service) (list_uri : string) (entry : string) : M unit :=
  if PyStr.truthy (PyStr.strip entry)
  then did ← normalize_entry svc entry; add_user_to_list svc did list_uri
  else mret tt.

(** [main], with the file name of the command line and the value of the
    environment variable BSKY_APP_PASS. *)
Definition main (svc : Service) (filename : string) (BSKY_APP_PW : option string)
  : M unit :=
  send (Login BSKY_HANDLE BSKY_APP_PW)
       (fun h => srv_login svc h BSKY_HANDLE BSKY_APP_PW) ;;
  list_uri ← get_list_uri svc TARGET_LIST;
  text ← read_file filename;
  for_each (add_entry svc list_uri) (PyStr.file_lines text).

End bskyMassLister.

(** ** Vocabulary of the statements *)

(** The membership-creation requests of a log, in order. *)
Definition creations (l : list request) : list (string * ListitemRecord) :=
  omap (fun r => match r with CreateListitem repo rec => Some (repo, rec) | _ => None end) l.

(** The value of an argument of [__init__] when it is given, and else
    the value read from the credential file. *)
Definition or_from_file (argument from_file : option string) : option string :=
  match argument with
  | Some x => Some x
  | None => from_file
  end.

(** The lines the loop of [add_file_to_list] does not skip. *)
Definition accepted (lines : list string) : list string :=
  filter (fun line => PyStr.all_space line = false) lines.

(** The text of a file that holds one value per line. *)
Definition one_per_line (values : list string) : string :=
  foldr (fun v text => v +:+ NL +:+ text) "" values.

(** A page as the loops see it: its items (already projected to the
    value that is written) and its cursor. *)
Record page := { items : list string; next : option string }.

Definition list_page (r : GetListResponse) : page :=
  {| items := map (fun entry => pv_did (li_subject entry)) (gl_items r);
     next := gl_cursor r |}.
Definition followers_page (r : GetFollowersResponse) : page :=
  {| items := map pv_did (gf_followers r); next := gf_cursor r |}.
Definition likes_page (r : GetLikesResponse) : page :=
  {| items := map (fun like => pv_did (like_actor like)) (lk_likes r);
     next := lk_cursor r |}.


(** The endpoint of each of the three collections, with page size 100. *)
Definition fetch_list (svc : Service) (uri : string) h c : outcome page :=
  match srv_get_list svc h uri (Some 100) c with
  | Ret r => Ret (list_page r) | Raise e => Raise e end.
Definition fetch_followers (svc : Service) (actor : string) h c : outcome page :=
  match srv_get_followers svc h actor (Some 100) c with
  | Ret r => Ret (followers_page r) | Raise e => Raise e end.
Definition fetch_likes (svc : Service) (at_uri : string) h c : outcome page :=
  match srv_get_likes svc h at_uri (Some 100) c with
  | Ret r => Ret (likes_page r) | Raise e => Raise e end.

(** All the values of the pages, page after page. *)
Definition all_items (pages : list page) : list string :=
  concat (map items pages).




(** The loop the three methods share, over an endpoint [fetch] whose
    request is [mk]: it is what [backup_list_loop], [get_followers_loop]
    and [get_likes_loop] are, up to the endpoint and the projection. *)
Fixpoint collect (fetch : list request -> option string -> outcome page)
    (mk : option string -> request) (file : string) (fuel : nat)
    (cursor : option string) (w : World) : option (outcome unit * World) :=
  match fuel with
  | 0 => None
  | S fuel =>
      match send (mk cursor) (fun h => fetch h cursor) w with
      | (Raise e, w) => Some (Raise e, w)
      | (Ret p, w) =>
          match for_each (fun v => write file (v +:+ NL)) (items p) w with
          | (Raise e, w) => Some (Raise e, w)
          | (Ret _, w) =>
              match next p with
              | None => Some (Ret tt, w)
              | Some _ => collect fetch mk file fuel (next p) w
              end
          end
      end
  end.


(** ** A sample service *)

Module Sample.

Definition profile (did : string) : ProfileView :=
  {| pv_did := did; pv_handle := "" |}.

(** Two pages of one value each; the cursor of the first is [c1]. *)
Definition two_pages {R} (page1 page2 : option string -> R)
    (cursor : option string) : outcome R :=
  match cursor with
  | None => Ret (page1 (Some "c1"))
  | Some c => if String.eqb c "c1" then Ret (page2 None)
              else Raise (External "BadRequestError")
  end.

Definition lists_page1 : GetListsResponse :=
  {| ls_lists := [ {| lv_name := "Work"; lv_uri := "u1" |};
                   {| lv_name := "Friends"; lv_uri := "u2" |};
                   {| lv_name := "Friends"; lv_uri := "u4" |} ];
     ls_cursor := Some "more" |}.
Definition lists_page2 : GetListsResponse :=
  {| ls_lists := [ {| lv_name := "Archive"; lv_uri := "u3" |} ];
     ls_cursor := None |}.

Definition ticking (n : nat) : string :=
  "2024-01-01T00:00:0" +:+ String (ascii_of_nat (48 + n mod 10)) "".

Definition service : Service := {|
  srv_login := fun _ _ _ => Ret tt;
  srv_login_session := fun _ _ => Ret tt;
  srv_get_lists := fun _ _ _ cursor =>
    match cursor with None => Ret lists_page1 | Some _ => Ret lists_page2 end;
  srv_get_list := fun _ _ _ =>
    two_pages
      (fun c => {| gl_items := [ {| li_uri := "i1"; li_subject := profile "did:plc:a" |} ];
                   gl_cursor := c |})
      (fun c => {| gl_items := [ {| li_uri := "i2"; li_subject := profile "did:plc:b" |} ];
                   gl_cursor := c |});
  srv_get_followers := fun _ _ _ =>
    two_pages
      (fun c => {| gf_followers := [profile "did:plc:a"]; gf_cursor := c |})
      (fun c => {| gf_followers := [profile "did:plc:b"]; gf_cursor := c |});
  srv_get_likes := fun _ _ _ =>
    two_pages
      (fun c => {| lk_likes := [ {| like_actor := profile "did:plc:a";
                                    like_created_at := "" |} ];
                   lk_cursor := c |})
      (fun c => {| lk_likes := [ {| like_actor := profile "did:plc:b";
                                    like_created_at := "" |} ];
                   lk_cursor := c |});
  srv_resolve_handle := fun _ h =>
    if String.eqb h "alice.example" then Ret "did:plc:alice"
    else Raise (External "BadRequestError");
  srv_id_resolve := fun _ h =>
    if String.eqb h "alice.example" then Ret (Some "did:plc:alice")
    else if String.eqb h "down.example" then Raise (External "ConnectError")
    else Ret None;
  srv_create_listitem := fun _ _ record =>
    if String.eqb (rec_subject record) "did:plc:blocked"
    then Raise (External "RequestException") else Ret tt;
  srv_raw_get_lists := fun _ _ =>
    Ret [ {| lv_name := "Hatespam"; lv_uri := "u9" |} ];
  srv_export_session_string := fun _ => "session";
  srv_clock := ticking;
  cfg_read_string := fun _ => None;
  cfg_get := fun _ _ option =>
    if String.eqb option "my_handle" then Ret "me.example"
    else if String.eqb option "app_password" then Ret "app-pw"
    else Raise NoOptionError;
  os_open_w := fun _ => None
|}.

(** The same service behind a clock that gives the same reading twice. *)
Definition with_clock (clock : nat -> string) (svc : Service) : Service := {|
  srv_login := srv_login svc;
  srv_login_session := srv_login_session svc;
  srv_get_lists := srv_get_lists svc;
  srv_get_list := srv_get_list svc;
  srv_get_followers := srv_get_followers svc;
  srv_get_likes := srv_get_likes svc;
  srv_resolve_handle := srv_resolve_handle svc;
  srv_id_resolve := srv_id_resolve svc;
  srv_create_listitem := srv_create_listitem svc;
  srv_raw_get_lists := srv_raw_get_lists svc;
  srv_export_session_string := srv_export_session_string svc;
  srv_clock := clock;
  cfg_read_string := cfg_read_string svc;
  cfg_get := cfg_get svc;
  os_open_w := os_open_w svc
|}.

Definition frozen : Service :=
  with_clock (fun _ => "2024-01-01T00:00:00") service.

(** A world with the given files, nothing sent and the clock unread. *)
Definition world (files : list (string * string)) : World :=
  {| fs := list_to_map files; log := []; ticks := 0 |}.

Definition pages : list page :=
  [ {| items := ["did:plc:a"]; next := Some "c1" |};
    {| items := ["did:plc:b"]; next := None |} ].

Definition self : bskylisttool.BskyListTool :=
  {| bskylisttool.token_file := Some ".bsky.token";
     bskylisttool.handle := "me.example" |}.

Definition subjects : string :=
  "did:plc:a" +:+ NL +:+ NL +:+ "@alice.example" +:+ NL
  +:+ "bob.example" +:+ NL +:+ "did:plc:c" +:+ NL.

Definition blocked : string :=
  "did:plc:a" +:+ NL +:+ "did:plc:blocked" +:+ NL +:+ "did:plc:c" +:+ NL.

Definition post_url : string := "https://site/profile/alice.example/post/rkey123".
Definition at_uri : string := "at://did:plc:alice/app.bsky.feed.post/rkey123".

End Sample.

(** ** bskyListBackup.py *)

Module bskyListBackup.

Definition BSKY_API_URL : string := "https://public.api.bsky.app".
Definition BSKY_HANDLE : string := "chaosbengel.de".

(** [get_list_uri]: the scan is the one of [bskylisttool._get_list_uri],
    over the lists of the raw answer. *)
Definition get_list_uri (svc : Service) (list_name : string) : M string :=
  let url := BSKY_API_URL +:+ "/xrpc/app.bsky.graph.getLists?actor=" +:+ BSKY_HANDLE in
  lists ← send (RawGet url) (fun h => srv_raw_get_lists svc h url);
  match bskylisttool.scan_lists list_name lists with
  | Some list_uri => mret list_uri
  | None =>
      raise (ListNotFoundException
               ("Liste " +:+ list_name +:+ " konnte nicht gefunden werden."))
  end.

(** [backup_list]: one request, with neither limit nor cursor, sent
    before the file is opened. *)
Definition backup_list (svc : Service) (list_uri file : string) : M unit :=
  bskylist ← send (GetList list_uri None None)
                  (fun h => srv_get_list svc h list_uri None None);
  open_w svc file ;;
  for_each (fun entry => write file (pv_did (li_subject entry) +:+ NL))
           (gl_items bskylist).

(** [main], with the two arguments of the command line and the value of
    the environment variable BSKY_APP_PASS. *)
Definition main (svc : Service) (list file : string) (BSKY_APP_PASS : option string)
  : M unit :=
  send (Login BSKY_HANDLE BSKY_APP_PASS)
       (fun h => srv_login svc h BSKY_HANDLE BSKY_APP_PASS) ;;
  list_uri ← get_list_uri svc list;
  backup_list svc list_uri file.

End bskyListBackup.

(** ** The command line of bskylisttool.py (lines 43 to 47 and 159 to 199) *)

Module cli.

(** What [p.parse_args()] can return.  Under [list] the operation is
    required and [add] is the only one; under [fetch] it may be left out.
    The cases ['download'] and ['followers'] under [case 'list'] match none
    of these. *)
Inductive Namespace : Type :=
| list_add (target_list_name file : string)
| fetch_nothing
| fetch_list (owner list_name file : string)
| fetch_followers (handle file : string)
| fetch_likes (url file : string).

(** [__enter__] *)
Definition __enter__ (self : bskylisttool.BskyListTool) : M bskylisttool.BskyListTool :=
  mret self.

(** [__exit__]: it returns None, so that an exception of the body goes on. *)
Definition __exit__ (svc : Service) (self : bskylisttool.BskyListTool) : M unit :=
  bskylisttool.save_token svc self.

(** The [match] on [args.main_menu] and [args.operation]. *)
Definition dispatch (svc : Service) (fuel : nat) (tool : bskylisttool.BskyListTool)
    (args : Namespace) (w : World) : option (outcome unit * World) :=
  match args with
  | list_add target_list_name file =>
      Some (bskylisttool.add_file_to_list svc tool target_list_name file w)
  | fetch_nothing => Some (Ret tt, w)
  | fetch_list owner list_name file =>
      bskylisttool.backup_list svc fuel list_name owner file w
  | fetch_followers handle file =>
      bskylisttool.get_followers svc fuel handle file w
  | fetch_likes url file =>
      bskylisttool.get_likes svc fuel url file w
  end.

(** [with BskyListTool(cred_file='./config', token_file='./.bsky.token')
    as tool: ...]: when the constructor raises, nothing else runs; else
    [__exit__] runs after the body, whether it returned or raised. *)
Definition main (svc : Service) (fuel : nat) (args : Namespace) (w : World)
  : option (outcome unit * World) :=
  match bskylisttool.__init__ svc None None (Some "./config") (Some "./.bsky.token") w with
  | (Raise e, w) => Some (Raise e, w)
  | (Ret self, w) =>
      match __enter__ self w with
      | (Raise e, w) => Some (Raise e, w)
      | (Ret tool, w) =>
          match dispatch svc fuel tool args w with
          | None => None
          | Some (result, w) =>
              match __exit__ svc self w with
              | (Raise e, w) => Some (Raise e, w)
              | (Ret _, w) => Some (result, w)
              end
          end
      end
  end.

End cli.

(** ** Further vocabulary *)

(** The handles sent to the identity resolver, in order. *)
Definition resolutions (l : list request) : list string :=
  omap (fun r => match r with IdResolve h => Some h | _ => None end) l.

(** A request that opens a session. *)
Definition is_login (r : request) : bool :=
  match r with
  | Login _ _ | LoginSession _ => true
  | _ => false
  end.

(** [interrupted fetch mk h c pages e]: asked with cursor [c] after the
    requests [h], the endpoint answers with [pages], each with a cursor,
    and then raises [e] at the request that follows. *)
Inductive interrupted (fetch : list request -> option string -> outcome page)
    (mk : option string -> request)
  : list request -> option string -> list page -> exn -> Prop :=
| interrupted_now h c e :
    fetch h c = Raise e -> interrupted fetch mk h c [] e
| interrupted_later h c p c' rest e :
    fetch h c = Ret p -> next p = Some c' ->
    interrupted fetch mk (h ++ [mk c]) (Some c') rest e ->
    interrupted fetch mk h c (p :: rest) e.

(** What a run of one of the three methods comes to when its endpoint
    raises [e] after [pages], from the world [w] in which the method
    starts and the world [w0] in which its loop starts: with fuel for one
    iteration more than there are pages it raises [e]; the file then holds
    the values of the pages received, one per line; and the requests of the
    loop are one per page and the one that failed. *)
Definition cut_short (run : nat -> World -> option (outcome unit * World))
    (mk : option string -> request) (file : string) (pages : list page)
    (e : exn) (w w0 : World) : Prop :=
  exists w' : World,
    (forall fuel, length pages < fuel -> run fuel w = Some (Raise e, w'))
    /\ fs w' = <[file := one_per_line (all_items pages)]> (fs w)
    /\ log w' = log w0 ++ map mk (None :: map next pages).

(** The endpoint never answers with a last page. *)
Definition endless (fetch : list request -> option string -> outcome page) : Prop :=
  forall h c, exists p c', fetch h c = Ret p /\ next p = Some c'.

(** ** More sample services *)

Module Cases.

(** The three paged endpoints replaced by one behaviour: [pages page1 c]
    is the answer at cursor [c], where [page1] makes a page of one member
    from the cursor it is to carry. *)
Definition with_pages
    (pages : forall R : Type, (option string -> R) -> option string -> outcome R)
    (svc : Service) : Service := {|
  srv_login := srv_login svc;
  srv_login_session := srv_login_session svc;
  srv_get_lists := srv_get_lists svc;
  srv_get_list := fun _ _ _ =>
    pages _ (fun c => {| gl_items := [ {| li_uri := "i1";
                                          li_subject := Sample.profile "did:plc:a" |} ];
                         gl_cursor := c |});
  srv_get_followers := fun _ _ _ =>
    pages _ (fun c => {| gf_followers := [Sample.profile "did:plc:a"];
                         gf_cursor := c |});
  srv_get_likes := fun _ _ _ =>
    pages _ (fun c => {| lk_likes := [ {| like_actor := Sample.profile "did:plc:a";
                                          like_created_at := "" |} ];
                         lk_cursor := c |});
  srv_resolve_handle := srv_resolve_handle svc;
  srv_id_resolve := srv_id_resolve svc;
  srv_create_listitem := srv_create_listitem svc;
  srv_raw_get_lists := srv_raw_get_lists svc;
  srv_export_session_string := srv_export_session_string svc;
  srv_clock := srv_clock svc;
  cfg_read_string := cfg_read_string svc;
  cfg_get := cfg_get svc;
  os_open_w := os_open_w svc
|}.


Definition with_create_listitem
    (f : list request -> string -> ListitemRecord -> outcome unit)
    (svc : Service) : Service := {|
  srv_login := srv_login svc;
  srv_login_session := srv_login_session svc;
  srv_get_lists := srv_get_lists svc;
  srv_get_list := srv_get_list svc;
  srv_get_followers := srv_get_followers svc;
  srv_get_likes := srv_get_likes svc;
  srv_resolve_handle := srv_resolve_handle svc;
  srv_id_resolve := srv_id_resolve svc;
  srv_create_listitem := f;
  srv_raw_get_lists := srv_raw_get_lists svc;
  srv_export_session_string := srv_export_session_string svc;
  srv_clock := srv_clock svc;
  cfg_read_string := cfg_read_string svc;
  cfg_get := cfg_get svc;
  os_open_w := os_open_w svc
|}.

Definition with_login
    (f : list request -> string -> option string -> outcome unit)
    (svc : Service) : Service := {|
  srv_login := f;
  srv_login_session := srv_login_session svc;
  srv_get_lists := srv_get_lists svc;
  srv_get_list := srv_get_list svc;
  srv_get_followers := srv_get_followers svc;
  srv_get_likes := srv_get_likes svc;
  srv_resolve_handle := srv_resolve_handle svc;
  srv_id_resolve := srv_id_resolve svc;
  srv_create_listitem := srv_create_listitem svc;
  srv_raw_get_lists := srv_raw_get_lists svc;
  srv_export_session_string := srv_export_session_string svc;
  srv_clock := srv_clock svc;
  cfg_read_string := cfg_read_string svc;
  cfg_get := cfg_get svc;
  os_open_w := os_open_w svc
|}.

(** The paged endpoints hand out a cursor that they then reject. *)
Definition breaking : Service :=
  with_pages
    (fun R page1 cursor =>
       match cursor with
       | None => Ret (page1 (Some "gone"))
       | Some _ => Raise (External "BadRequestError")
       end)
    Sample.service.

(** The paged endpoints hand out a cursor with every page. *)
Definition looping : Service :=
  with_pages (fun R page1 _ => Ret (page1 (Some "again"))) Sample.service.


(** Every membership write is accepted. *)
Definition accepting : Service :=
  with_create_listitem (fun _ _ _ => Ret tt) Sample.service.

(** The password login is refused. *)
Definition refusing : Service :=
  with_login (fun _ _ _ => Raise (External "UnauthorizedError")) Sample.service.

Definition with_followers
    (f : list request -> string -> option nat -> option string
         -> outcome GetFollowersResponse)
    (svc : Service) : Service := {|
  srv_login := srv_login svc;
  srv_login_session := srv_login_session svc;
  srv_get_lists := srv_get_lists svc;
  srv_get_list := srv_get_list svc;
  srv_get_followers := f;
  srv_get_likes := srv_get_likes svc;
  srv_resolve_handle := srv_resolve_handle svc;
  srv_id_resolve := srv_id_resolve svc;
  srv_create_listitem := srv_create_listitem svc;
  srv_raw_get_lists := srv_raw_get_lists svc;
  srv_export_session_string := srv_export_session_string svc;
  srv_clock := srv_clock svc;
  cfg_read_string := cfg_read_string svc;
  cfg_get := cfg_get svc;
  os_open_w := os_open_w svc
|}.

(** 101 followers, served as a full page of 100 and a last page of one. *)
Definition packing : Service :=
  with_followers
    (fun _ _ _ cursor =>
       match cursor with
       | None =>
           Ret {| gf_followers := List.repeat (Sample.profile "did:plc:a") 100;
                  gf_cursor := Some "c1" |}
       | Some _ =>
           Ret {| gf_followers := [Sample.profile "did:plc:b"]; gf_cursor := None |}
       end)
    Sample.service.


Definition with_open_w (f : string -> option exn) (svc : Service) : Service := {|
  srv_login := srv_login svc;
  srv_login_session := srv_login_session svc;
  srv_get_lists := srv_get_lists svc;
  srv_get_list := srv_get_list svc;
  srv_get_followers := srv_get_followers svc;
  srv_get_likes := srv_get_likes svc;
  srv_resolve_handle := srv_resolve_handle svc;
  srv_id_resolve := srv_id_resolve svc;
  srv_create_listitem := srv_create_listitem svc;
  srv_raw_get_lists := srv_raw_get_lists svc;
  srv_export_session_string := srv_export_session_string svc;
  srv_clock := srv_clock svc;
  cfg_read_string := cfg_read_string svc;
  cfg_get := cfg_get svc;
  os_open_w := f
|}.

(** No file can be created in the directory [/nowhere], which is not
    there. *)
Definition unwritable : Service :=
  with_open_w
    (fun path =>
       if PyStr.startswith "/nowhere/" path
       then Some (FileNotFoundError path) else None)
    Sample.service.

Definition dids : string :=
  "did:plc:a  " +:+ NL +:+ NL +:+ "did:plc:blocked" +:+ NL +:+ "did:plc:c".

End Cases.

(** * Proofs *)

(** ** Strings *)

Section PyStrFacts.
Import PyStr.

Example split_post_url :
  split "/" "https://site/profile/alice.example/post/rkey123"
  = ["https:"; ""; "site"; "profile"; "alice.example"; "post"; "rkey123"].
Proof. reflexivity. Qed.

Example split_empty : split "/" "" = [""].
Proof. reflexivity. Qed.

Example rstrip_keeps_the_left :
  rstrip ("  @bob.example  " +:+ String CR (String LF "")) = "  @bob.example".
Proof. reflexivity. Qed.

Example strip_blank : strip ("   " +:+ NL) = "".
Proof. reflexivity. Qed.

Example file_lines_mixed :
  file_lines ("a" +:+ String CR (String LF ("b" +:+ String LF "c")))
  = ["a" +:+ NL; "b" +:+ NL; "c"].
Proof. reflexivity. Qed.

Lemma append_cons (c : ascii) (s t : string) :
  String c s +:+ t = String c (s +:+ t).
Proof. reflexivity. Qed.

Lemma append_nil_l (s : string) : "" +:+ s = s.
Proof. reflexivity. Qed.

Lemma append_nil_r (s : string) : s +:+ "" = s.
Proof.
  induction s as [|c s IH]; [reflexivity|].
  now rewrite append_cons, IH.
Qed.

Lemma append_assoc (a b c : string) : (a +:+ b) +:+ c = a +:+ (b +:+ c).
Proof.
  induction a as [|x a IH]; [reflexivity|].
  now rewrite !append_cons, IH.
Qed.

Lemma one_per_line_cons (v : string) (values : list string) :
  one_per_line (v :: values) = v +:+ NL +:+ one_per_line values.
Proof. reflexivity. Qed.

Lemma one_per_line_app (a b : list string) :
  one_per_line (a ++ b) = one_per_line a +:+ one_per_line b.
Proof.
  induction a as [|v a IH]; [reflexivity|].
  rewrite <- app_comm_cons, !one_per_line_cons, IH.
  now rewrite !append_assoc.
Qed.

End PyStrFacts.

(** ** The monad *)

Ltac unfold_monad :=
  unfold mbind, M_bind, mret, M_ret, raise, send in *.

Lemma bind_ret {A B} (m : M A) (k : A -> M B) (w w' : World) (a : A) :
  m w = (Ret a, w') -> (m ≫= k) w = k a w'.
Proof. intros H. unfold_monad. now rewrite H. Qed.

Lemma bind_raise {A B} (m : M A) (k : A -> M B) (w w' : World) (e : exn) :
  m w = (Raise e, w') -> (m ≫= k) w = (Raise e, w').
Proof. intros H. unfold_monad. now rewrite H. Qed.

Lemma for_each_cons {A} (body : A -> M unit) (x : A) (rest : list A) :
  for_each body (x :: rest) = (body x ;; for_each body rest).
Proof. reflexivity. Qed.

Lemma for_each_map {A B} (f : A -> B) (body : B -> M unit) (l : list A) :
  for_each (fun x => body (f x)) l = for_each body (map f l).
Proof.
  induction l as [|x l IH]; [reflexivity|].
  cbn [map]. rewrite !for_each_cons. now rewrite IH.
Qed.

(** The loop stops at the first line whose body raises, in the world
    that body left. *)
Lemma for_each_app_raise {A} (body : A -> M unit) (pre post : list A) (x : A)
    (w w' w'' : World) (e : exn) :
  for_each body pre w = (Ret tt, w') ->
  body x w' = (Raise e, w'') ->
  for_each body (pre ++ x :: post) w = (Raise e, w'').
Proof.
  revert w. induction pre as [|y pre IH]; intros w Hpre Hx.
  - cbn in Hpre. unfold_monad. injection Hpre as <-.
    cbn [app]. rewrite for_each_cons. now apply bind_raise.
  - rewrite <- app_comm_cons, for_each_cons.
    rewrite for_each_cons in Hpre. unfold_monad.
    destruct (body y w) as [[[]|e'] w1]; [|discriminate].
    now apply IH.
Qed.

(** ** Files *)

Lemma write_lines (file : string) (values : list string) (w : World) (old : string) :
  fs w !! file = Some old ->
  for_each (fun v => write file (v +:+ NL)) values w
  = (Ret tt, {| fs := <[file := old +:+ one_per_line values]> (fs w);
                log := log w; ticks := ticks w |}).
Proof.
  revert w old. induction values as [|v values IH]; intros w old Hold.
  - cbn [for_each one_per_line foldr]. unfold_monad.
    rewrite append_nil_r, insert_id by exact Hold. now destruct w.
  - rewrite for_each_cons, one_per_line_cons.
    erewrite bind_ret by reflexivity.
    erewrite IH.
    2:{ cbn [write set_fs fs]. rewrite Hold. apply lookup_insert_eq. }
    cbn [set_fs fs log ticks default]. rewrite insert_insert_eq.
    now rewrite !append_assoc.
Qed.

(** ** Pagination *)

Section Pagination.
Import bskylisttool.

Variable svc : Service.

Lemma backup_list_loop_collect (uri file : string) (fuel : nat) :
  forall c w,
    backup_list_loop svc uri file fuel c w
    = collect (fetch_list svc uri) (GetList uri (Some 100)) file fuel c w.
Proof.
  induction fuel as [|fuel IH]; intros c w; [reflexivity|].
  cbn [backup_list_loop collect]. unfold send, fetch_list.
  destruct (srv_get_list svc (log w) uri (Some 100) c) as [r|e]; [|reflexivity].
  rewrite (for_each_map (fun entry => pv_did (li_subject entry))
             (fun v => write file (v +:+ NL))).
  cbn [items next list_page].
  destruct (for_each _ _ _) as [[[]|e] w1]; [|reflexivity].
  destruct (gl_cursor r); [apply IH | reflexivity].
Qed.

Lemma get_followers_loop_collect (actor file : string) (fuel : nat) :
  forall c w,
    get_followers_loop svc actor file fuel c w
    = collect (fetch_followers svc actor) (GetFollowers actor (Some 100)) file fuel c w.
Proof.
  induction fuel as [|fuel IH]; intros c w; [reflexivity|].
  cbn [get_followers_loop collect]. unfold send, fetch_followers.
  destruct (srv_get_followers svc (log w) actor (Some 100) c) as [r|e]; [|reflexivity].
  rewrite (for_each_map pv_did (fun v => write file (v +:+ NL))).
  cbn [items next followers_page].
  destruct (for_each _ _ _) as [[[]|e] w1]; [|reflexivity].
  destruct (gf_cursor r); [apply IH | reflexivity].
Qed.

Lemma get_likes_loop_collect (at_uri file : string) (fuel : nat) :
  forall c w,
    get_likes_loop svc at_uri file fuel c w
    = collect (fetch_likes svc at_uri) (GetLikes at_uri (Some 100)) file fuel c w.
Proof.
  induction fuel as [|fuel IH]; intros c w; [reflexivity|].
  cbn [get_likes_loop collect]. unfold send, fetch_likes.
  destruct (srv_get_likes svc (log w) at_uri (Some 100) c) as [r|e]; [|reflexivity].
  rewrite (for_each_map (fun like => pv_did (like_actor like))
             (fun v => write file (v +:+ NL))).
  cbn [items next likes_page].
  destruct (for_each _ _ _) as [[[]|e] w1]; [|reflexivity].
  destruct (lk_cursor r); [apply IH | reflexivity].
Qed.

End Pagination.

Section Collect.

Variable fetch : list request -> option string -> outcome page.
Variable mk : option string -> request.
Variable file : string.




End Collect.

(** ** Counting pages *)





(** ** Name resolution: what it sends *)

Section Resolution.
Import bskylisttool.

Variable svc : Service.

(** Whatever its outcome, list resolution sends one request, for the
    lists of the owner, with neither limit nor cursor. *)
Lemma get_list_uri_world (listname owner : string) (w : World) :
  snd (_get_list_uri svc listname owner w) = add_log (GetLists owner None None) w.
Proof.
  unfold _get_list_uri. unfold_monad.
  destruct (srv_get_lists svc (log w) owner None None) as [r|e]; [|reflexivity].
  now destruct (scan_lists listname (ls_lists r)).
Qed.

Lemma getitem_ret {A} (l : list A) (i : nat) (x : A) :
  PyStr.index l i = Some x -> forall w, getitem l i w = (Ret x, w).
Proof. intros H w. unfold getitem. now rewrite H. Qed.

Lemma getitem_raise {A} (l : list A) (i : nat) :
  length l <= i -> forall w, getitem l i w = (Raise IndexError, w).
Proof.
  intros H w. unfold getitem, PyStr.index.
  now rewrite (proj2 (nth_error_None l i)) by exact H.
Qed.

(** A parsed post URL leaves the files and the clock as they were. *)
Lemma link_to_at_uri_frame (link : string) (w w' : World) (o : outcome string) :
  _link_to_at_uri svc link w = (o, w') -> fs w' = fs w /\ ticks w' = ticks w.
Proof.
  unfold _link_to_at_uri, getitem. unfold_monad.
  destruct (PyStr.index _ 4); [|now intros [= _ <-]].
  destruct (PyStr.index _ 6); [|now intros [= _ <-]].
  destruct (srv_resolve_handle svc (log w) _); now intros [= _ <-].
Qed.

(** With the input file there, [add_file_to_list] is the list lookup
    followed by the loop over the lines of the file. *)
Lemma add_file_present (self : BskyListTool) (listname file text : string) (w : World) :
  fs w !! file = Some text ->
  add_file_to_list svc self listname file w
  = (uri ← _get_list_uri svc listname (handle self);
     for_each (add_line svc self uri) (PyStr.file_lines text)) w.
Proof.
  intros Hfile. unfold add_file_to_list, path_exists.
  erewrite bind_ret by reflexivity.
  rewrite bool_decide_eq_true_2 by (rewrite Hfile; eauto). cbn [negb orb].
  unfold mbind, M_bind.
  pose proof (get_list_uri_world listname (handle self) w) as Hw.
  destruct (_get_list_uri svc listname (handle self) w) as [[uri|e] w0];
    cbn [snd] in Hw; subst w0; [|reflexivity].
  unfold read_file. cbn [fs add_log]. now rewrite Hfile.
Qed.

End Resolution.

(** ** C1 *)

Section CollectedRuns.
Import bskylisttool.

Variable svc : Service.



End CollectedRuns.

Section CollectedSample.
Import bskylisttool.



Example get_followers_packed :
  option_map (fun r => (fst r, length (log (snd r))))
    (get_followers Cases.packing 2 "alice.example" "out.txt" (Sample.world []))
  = Some (Ret tt, 2).
Proof. reflexivity. Qed.

Example backup_list_sample :
  option_map (fun r => (fst r, fs (snd r) !! "out.txt"))
    (backup_list Sample.service 2 "Friends" "alice.example" "out.txt" (Sample.world []))
  = Some (Ret tt, Some ("did:plc:a" +:+ NL +:+ "did:plc:b" +:+ NL)).
Proof. reflexivity. Qed.

Example backup_list_out_of_fuel :
  backup_list Sample.service 1 "Friends" "alice.example" "out.txt" (Sample.world [])
  = None.
Proof. reflexivity. Qed.


End CollectedSample.

(** ** C3 and C9: list resolution *)

Section ListResolution.
Import bskylisttool.

Lemma scan_lists_first (listname : string) (before after : list ListView) (l : ListView) :
  lv_name l = listname ->
  (forall x, In x before -> lv_name x <> listname) ->
  scan_lists listname (before ++ l :: after) = Some (lv_uri l).
Proof.
  intros Hl. induction before as [|x before IH]; intros Hbefore; cbn.
  - now rewrite (proj2 (String.eqb_eq _ _) Hl).
  - rewrite (proj2 (String.eqb_neq _ _)) by (apply Hbefore; now left).
    apply IH. intros y Hy. apply Hbefore. now right.
Qed.

Lemma scan_lists_none (listname : string) (lists : list ListView) :
  (forall x, In x lists -> lv_name x <> listname) ->
  scan_lists listname lists = None.
Proof.
  induction lists as [|x lists IH]; intros H; cbn; [reflexivity|].
  rewrite (proj2 (String.eqb_neq _ _)) by (apply H; now left).
  apply IH. intros y Hy. apply H. now right.
Qed.

(** A scan that finds something has found the first list of that name. *)
Lemma scan_lists_some (listname uri : string) (lists : list ListView) :
  scan_lists listname lists = Some uri ->
  exists before l after,
    lists = before ++ l :: after /\ lv_name l = listname /\ lv_uri l = uri
    /\ forall x, In x before -> lv_name x <> listname.
Proof.
  induction lists as [|x lists IH]; cbn; [discriminate|].
  destruct (String.eqb (lv_name x) listname) eqn:E.
  - intros [= <-]. exists [], x, lists. apply String.eqb_eq in E. now repeat split.
  - intros H. destruct (IH H) as (before & l & after & -> & Hn & Hu & Hb).
    exists (x :: before), l, after. repeat split; try assumption.
    intros y [<-|Hy]; [now apply String.eqb_neq | now apply Hb].
Qed.

Variable svc : Service.

(** C3: over the lists the service returns for the owner, resolution
    returns the uri of the first list, in response order, whose name
    equals the requested name, and raises ListNotFoundException when no
    list has that name. *)
Theorem list_resolution_first_match (listname owner : string) (w : World)
    (response : GetListsResponse) :
  srv_get_lists svc (log w) owner None None = Ret response ->
  (forall before l after,
      ls_lists response = before ++ l :: after ->
      lv_name l = listname ->
      (forall x, In x before -> lv_name x <> listname) ->
      fst (_get_list_uri svc listname owner w) = Ret (lv_uri l))
  /\ ((forall x, In x (ls_lists response) -> lv_name x <> listname) ->
      exists message,
        fst (_get_list_uri svc listname owner w) = Raise (ListNotFoundException message)).
Proof.
  intros Hresponse. unfold _get_list_uri. unfold_monad. rewrite Hresponse. split.
  - intros before l after Hlists Hl Hbefore.
    now rewrite Hlists, (scan_lists_first _ _ _ _ Hl Hbefore).
  - intros Hnone. rewrite (scan_lists_none _ _ Hnone). now eexists.
Qed.

(** C9: resolution sends exactly one request for the owner's lists, with
    no cursor, whatever the outcome; its result is decided by the answer to
    that request alone, so that two services that agree on this first page
    give the same result; and when no list of the first page has the name,
    resolution fails, whatever a later page holds. *)
Theorem list_resolution_single_page (svc' : Service) (listname owner : string)
    (w : World) :
  snd (_get_list_uri svc listname owner w) = add_log (GetLists owner None None) w
  /\ (srv_get_lists svc (log w) owner None None
      = srv_get_lists svc' (log w) owner None None ->
      fst (_get_list_uri svc listname owner w)
      = fst (_get_list_uri svc' listname owner w))
  /\ (forall first,
         srv_get_lists svc (log w) owner None None = Ret first ->
         (forall x, In x (ls_lists first) -> lv_name x <> listname) ->
         exists message,
           fst (_get_list_uri svc listname owner w)
           = Raise (ListNotFoundException message)).
Proof.
  split; [apply get_list_uri_world|]. split.
  - intros Hsame. unfold _get_list_uri. unfold_monad. rewrite <- Hsame.
    destruct (srv_get_lists svc (log w) owner None None) as [r|e]; [|reflexivity].
    now destruct (scan_lists listname (ls_lists r)).
  - intros first Hfirst Hnone. unfold _get_list_uri. unfold_monad.
    rewrite Hfirst, (scan_lists_none _ _ Hnone). now eexists.
Qed.

End ListResolution.

Section ListResolutionSample.
Import bskylisttool.

Lemma list_resolution_first_match_witness :
  fst (_get_list_uri Sample.service "Friends" "alice.example" (Sample.world []))
  = Ret "u2"
  /\ exists message,
      fst (_get_list_uri Sample.service "Family" "alice.example" (Sample.world []))
      = Raise (ListNotFoundException message).
Proof.
  split.
  - refine (proj1 (list_resolution_first_match Sample.service "Friends" "alice.example"
                     (Sample.world []) Sample.lists_page1 eq_refl)
                  [ {| lv_name := "Work"; lv_uri := "u1" |} ]
                  {| lv_name := "Friends"; lv_uri := "u2" |}
                  [ {| lv_name := "Friends"; lv_uri := "u4" |} ]
                  eq_refl eq_refl _).
    intros x [<-|[]]. discriminate.
  - refine (proj2 (list_resolution_first_match Sample.service "Family" "alice.example"
                     (Sample.world []) Sample.lists_page1 eq_refl) _).
    intros x [<-|[<-|[<-|[]]]]; discriminate.
Defined.

(** The list "Archive" of the sample owner is on the second page only:
    resolution sends one request and does not find it. *)
Lemma list_resolution_single_page_witness :
  log (snd (_get_list_uri Sample.service "Archive" "alice.example" (Sample.world [])))
  = [GetLists "alice.example" None None]
  /\ fst (_get_list_uri Sample.service "Archive" "alice.example" (Sample.world []))
     = fst (_get_list_uri Sample.frozen "Archive" "alice.example" (Sample.world []))
  /\ In {| lv_name := "Archive"; lv_uri := "u3" |} (ls_lists Sample.lists_page2)
  /\ exists message,
      fst (_get_list_uri Sample.service "Archive" "alice.example" (Sample.world []))
      = Raise (ListNotFoundException message).
Proof.
  destruct (list_resolution_single_page Sample.service Sample.frozen
              "Archive" "alice.example" (Sample.world [])) as (Hlog & Hsame & Hmiss).
  split; [now rewrite Hlog|]. split; [exact (Hsame eq_refl)|]. split; [now left|].
  apply (Hmiss Sample.lists_page1 eq_refl).
  intros x [<-|[<-|[<-|[]]]]; discriminate.
Defined.

End ListResolutionSample.

(** ** C7 and C8: post URLs *)

Section PostReference.
Import bskylisttool.

(** [split] cuts at every separator and nowhere else. *)
Lemma split_nonempty (sep : ascii) (s : string) : PyStr.split sep s <> [].
Proof.
  destruct s as [|c s]; cbn; [discriminate|].
  destruct (Ascii.eqb c sep); [discriminate|].
  now destruct (PyStr.split sep s).
Qed.

Lemma join_split (sep : ascii) (s : string) : PyStr.join sep (PyStr.split sep s) = s.
Proof.
  induction s as [|c s IH]; [reflexivity|].
  cbn [PyStr.split]. destruct (Ascii.eqb c sep) eqn:E.
  - apply Ascii.eqb_eq in E. subst c.
    pose proof (split_nonempty sep s) as Hne.
    destruct (PyStr.split sep s) as [|h t]; [congruence|].
    change (PyStr.join sep ("" :: h :: t))
      with ("" +:+ String sep (PyStr.join sep (h :: t))).
    now rewrite IH.
  - pose proof (split_nonempty sep s) as Hne.
    destruct (PyStr.split sep s) as [|h t]; [congruence|].
    destruct t as [|h' t].
    + cbn in IH |- *. now rewrite IH.
    + change (PyStr.join sep (String c h :: h' :: t))
        with (String c h +:+ String sep (PyStr.join sep (h' :: t))).
      change (PyStr.join sep (h :: h' :: t))
        with (h +:+ String sep (PyStr.join sep (h' :: t))) in IH.
      now rewrite append_cons, IH.
Qed.

Variable svc : Service.

(** C7: when the URL splits on '/' into at least 7 segments, segment 4
    is the handle that is resolved and segment 6 the record key, and with
    X the identifier the handle resolves to the result is exactly
    at://X/app.bsky.feed.post/ followed by the record key. *)
Theorem link_to_at_uri_shape (link : string) (w : World) :
  7 <= length (PyStr.split "/" link) ->
  exists profile rkey,
    PyStr.index (PyStr.split "/" link) 4 = Some profile
    /\ PyStr.index (PyStr.split "/" link) 6 = Some rkey
    /\ snd (_link_to_at_uri svc link w) = add_log (ResolveHandle profile) w
    /\ forall X,
        srv_resolve_handle svc (log w) profile = Ret X ->
        fst (_link_to_at_uri svc link w)
        = Ret ("at://" +:+ X +:+ "/app.bsky.feed.post/" +:+ rkey).
Proof.
  intros Hlen. unfold PyStr.index.
  destruct (nth_error (PyStr.split "/" link) 4) as [profile|] eqn:E4.
  2:{ apply nth_error_None in E4. lia. }
  destruct (nth_error (PyStr.split "/" link) 6) as [rkey|] eqn:E6.
  2:{ apply nth_error_None in E6. lia. }
  exists profile, rkey. split; [reflexivity|]. split; [reflexivity|].
  unfold _link_to_at_uri.
  erewrite bind_ret by (apply getitem_ret; exact E4).
  erewrite bind_ret by (apply getitem_ret; exact E6).
  unfold_monad. split.
  - now destruct (srv_resolve_handle svc (log w) profile).
  - intros X HX. now rewrite HX.
Qed.

(** C8, as amended: when the URL splits on '/' into fewer than 7
    segments, parsing fails with the IndexError of the list indexing
    itself, before anything is sent. *)
Theorem link_to_at_uri_short (link : string) (w : World) :
  length (PyStr.split "/" link) < 7 ->
  _link_to_at_uri svc link w = (Raise IndexError, w).
Proof.
  intros Hlen. unfold _link_to_at_uri.
  destruct (PyStr.index (PyStr.split "/" link) 4) as [profile|] eqn:E4.
  - erewrite bind_ret by (apply getitem_ret; exact E4).
    apply bind_raise. apply getitem_raise. lia.
  - apply bind_raise. apply getitem_raise.
    now apply nth_error_None in E4.
Qed.

End PostReference.

Section PostReferenceSample.
Import bskylisttool.

Lemma link_to_at_uri_shape_witness :
  _link_to_at_uri Sample.service Sample.post_url (Sample.world [])
  = (Ret "at://did:plc:alice/app.bsky.feed.post/rkey123",
     add_log (ResolveHandle "alice.example") (Sample.world [])).
Proof.
  destruct (link_to_at_uri_shape Sample.service Sample.post_url (Sample.world []))
    as (profile & rkey & H4 & H6 & Hworld & Hresult).
  - cbn. lia.
  - injection H4 as <-. injection H6 as <-.
    rewrite (surjective_pairing (_link_to_at_uri _ _ _)).
    now rewrite Hworld, (Hresult "did:plc:alice" eq_refl).
Defined.

Lemma link_to_at_uri_short_witness :
  _link_to_at_uri Sample.service "https://site/profile/alice.example" (Sample.world [])
  = (Raise IndexError, Sample.world []).
Proof.
  apply (link_to_at_uri_short Sample.service). cbn. lia.
Defined.

(** C8, as stated, fails: a URL of five segments ends in the IndexError
    of the indexing, not in an error of the program's own. *)
Lemma link_to_at_uri_short_counterexample :
  length (PyStr.split "/" "https://site/profile/alice.example") = 5
  /\ fst (_link_to_at_uri Sample.service "https://site/profile/alice.example"
            (Sample.world []))
     = Raise IndexError.
Proof. split; reflexivity. Qed.

End PostReferenceSample.

(** ** White space *)

Section Stripping.
Import PyStr.

Lemma all_space_app (a b : string) :
  all_space (a +:+ b) = all_space a && all_space b.
Proof.
  induction a as [|c a IH]; [reflexivity|].
  rewrite append_cons. cbn [all_space]. rewrite IH. now rewrite andb_assoc.
Qed.

Lemma rstrip_all_space (s : string) : all_space s = true -> rstrip s = "".
Proof.
  induction s as [|c s IH]; [reflexivity|].
  cbn [all_space rstrip]. intros H. apply andb_prop in H as [Hc Hs].
  now rewrite (IH Hs), Hc.
Qed.

Lemma rstrip_cons (c : ascii) (s : string) :
  isspace c = false -> rstrip (String c s) = String c (rstrip s).
Proof.
  intros Hc. cbn [rstrip]. destruct (rstrip s); [now rewrite Hc | reflexivity].
Qed.

(** [rstrip] removes a suffix of white space. *)
Lemma rstrip_suffix (s : string) :
  exists ws, s = rstrip s +:+ ws /\ all_space ws = true.
Proof.
  induction s as [|c s (ws & Hs & Hws)]; [now exists ""|].
  cbn [rstrip]. destruct (rstrip s) as [|a r] eqn:E.
  - rewrite append_nil_l in Hs. subst ws.
    destruct (isspace c) eqn:Hc.
    + exists (String c s). cbn [all_space]. now rewrite Hc, Hws.
    + exists s. now rewrite append_cons.
  - exists ws. split; [|exact Hws]. rewrite append_cons. now f_equal.
Qed.

(** ... and all of it: what remains does not end in white space. *)
Lemma rstrip_last (s : string) :
  all_space s = false ->
  exists c, last_char (rstrip s) = Some c /\ isspace c = false.
Proof.
  induction s as [|c s IH]; [discriminate|].
  cbn [all_space rstrip]. intros H.
  destruct (rstrip s) as [|a r] eqn:E.
  - destruct (isspace c) eqn:Hc.
    + cbn in H. destruct (IH H) as (x & Hx & _). discriminate.
    + exists c. now split.
  - destruct (all_space s) eqn:Hs.
    + rewrite (rstrip_all_space s Hs) in E. discriminate.
    + destruct (IH eq_refl) as (x & Hx & Hsp). exists x. now split.
Qed.

Lemma rstrip_fixed (s : string) (c : ascii) :
  last_char s = Some c -> isspace c = false -> rstrip s = s.
Proof.
  induction s as [|a s IH]; [reflexivity|].
  intros Hlast Hc. destruct s as [|b s].
  - injection Hlast as ->. cbn. now rewrite Hc.
  - change (last_char (String a (String b s))) with (last_char (String b s)) in Hlast.
    specialize (IH Hlast Hc). cbn [rstrip] in IH |- *.
    now rewrite IH.
Qed.

Lemma lstrip_last (s : string) (c : ascii) :
  last_char s = Some c -> isspace c = false -> truthy (lstrip s) = true.
Proof.
  induction s as [|a s IH]; [discriminate|].
  intros Hlast Hc. cbn [lstrip]. destruct (isspace a) eqn:Ha; [|reflexivity].
  destruct s as [|b s]; [injection Hlast as ->; congruence|].
  now apply IH.
Qed.

(** A line is skipped exactly when it is made of white space only. *)
Lemma strip_truthy (s : string) : truthy (strip s) = negb (all_space s).
Proof.
  unfold strip. destruct (all_space s) eqn:Hs.
  - now rewrite (rstrip_all_space s Hs).
  - destruct (rstrip_last s Hs) as (c & Hlast & Hc).
    now rewrite (lstrip_last _ _ Hlast Hc).
Qed.

Lemma startswith_at (s ident : string) :
  startswith "@" s = true -> slice_from_1 s = ident -> s = "@" +:+ ident.
Proof.
  destruct s as [|a s]; [discriminate|].
  cbn [startswith slice_from_1]. rewrite andb_true_r.
  intros Ha <-. apply Ascii.eqb_eq in Ha. now subst a.
Qed.

Lemma startswith_did_rstrip (s : string) :
  startswith "did:" s = true ->
  startswith "did:" (rstrip s) = true
  /\ rstrip (String "@" s) = String "@" (rstrip s).
Proof.
  intros H.
  destruct s as [|a [|b [|c [|d s]]]];
    try (cbn [startswith] in H; rewrite ?andb_false_r in H; discriminate).
  cbn [startswith] in H.
  repeat (apply andb_prop in H as [?%Ascii.eqb_eq H]). subst a b c d.
  rewrite !rstrip_cons by reflexivity. split; reflexivity.
Qed.

End Stripping.

(** ** C4 and C10: normalization of an input line *)

Section Normalization.
Import PyStr.

Variable svc : Service.

Lemma mass_lister_normalize (entry : string) :
  bskyMassLister.normalize_entry svc entry = bskylisttool.normalize svc entry.
Proof. reflexivity. Qed.

(** C4: a line of white space only is skipped, without output, request
    or error.  Any other line is trimmed of its trailing white space and
    of nothing else, loses one leading '@' if it has one, and is then,
    when it starts with did:, the result as it stands, with nothing sent;
    otherwise it is handed to the resolver, whose answer is the result.
    The loop of [main] in bskyMassLister.py does the same. *)
Theorem normalization_steps (self : bskylisttool.BskyListTool) (uri line : string)
    (w : World) :
  (all_space line = true ->
     bskylisttool.add_line svc self uri line w = (Ret tt, w)
     /\ bskyMassLister.add_entry svc uri line w = (Ret tt, w))
  /\ (all_space line = false ->
      let trimmed := rstrip line in
      let ident := if startswith "@" trimmed then slice_from_1 trimmed else trimmed in
      (exists ws, line = trimmed +:+ ws /\ all_space ws = true)
      /\ (exists c, last_char trimmed = Some c /\ isspace c = false)
      /\ (trimmed = "@" +:+ ident \/ (startswith "@" trimmed = false /\ ident = trimmed))
      /\ bskylisttool.normalize svc line w
         = (if startswith "did:" ident then (Ret (Some ident), w)
            else (srv_id_resolve svc (log w) ident, add_log (IdResolve ident) w))
      /\ bskyMassLister.normalize_entry svc line w = bskylisttool.normalize svc line w
      /\ bskylisttool.add_line svc self uri line w
         = (bskylisttool.normalize svc line
              ≫= bskylisttool.create_listitem svc self uri) w
      /\ bskyMassLister.add_entry svc uri line w
         = (bskyMassLister.normalize_entry svc line
              ≫= fun did => bskyMassLister.add_user_to_list svc did uri) w).
Proof.
  split.
  - intros Hblank. unfold bskylisttool.add_line, bskyMassLister.add_entry.
    now rewrite strip_truthy, Hblank.
  - intros Hline trimmed ident.
    split; [apply rstrip_suffix|]. split; [now apply rstrip_last|]. split.
    { subst ident. destruct (startswith "@" trimmed) eqn:Hat.
      - left. now apply startswith_at.
      - right. now split. }
    split.
    { unfold bskylisttool.normalize. fold trimmed. fold ident.
      now destruct (startswith "did:" ident). }
    split; [reflexivity|].
    unfold bskylisttool.add_line, bskyMassLister.add_entry.
    now rewrite strip_truthy, Hline.
Qed.

(** C10: a line made of '@' and then of a string that starts with did:
    is accepted, and its normal form is that string (trimmed of trailing
    white space, like every line), reached without anything being sent:
    the '@' is dropped before the prefix is looked at. *)
Theorem at_did_is_not_resolved (s : string) (w : World) :
  startswith "did:" s = true ->
  truthy (strip ("@" +:+ s)) = true
  /\ bskylisttool.normalize svc ("@" +:+ s) w = (Ret (Some (rstrip s)), w)
  /\ bskyMassLister.normalize_entry svc ("@" +:+ s) w = (Ret (Some (rstrip s)), w)
  /\ (forall c, last_char s = Some c -> isspace c = false -> rstrip s = s).
Proof.
  intros Hdid. destruct (startswith_did_rstrip s Hdid) as [Hdid' Hat].
  split.
  - rewrite strip_truthy. now rewrite append_cons.
  - assert (bskylisttool.normalize svc ("@" +:+ s) w = (Ret (Some (rstrip s)), w)) as H.
    { unfold bskylisttool.normalize. rewrite append_cons, append_nil_l, Hat.
      change (startswith "@" (String "@" (rstrip s))) with true.
      cbn [slice_from_1]. now rewrite Hdid'. }
    split; [exact H|]. split; [exact H|]. apply rstrip_fixed.
Qed.

End Normalization.

Section NormalizationSample.
Import PyStr.

Lemma normalization_steps_witness :
  let w := Sample.world [] in
  bskylisttool.add_line Sample.service Sample.self "u2" ("   " +:+ NL) w = (Ret tt, w)
  /\ bskylisttool.normalize Sample.service ("@alice.example" +:+ NL) w
     = (Ret (Some "did:plc:alice"), add_log (IdResolve "alice.example") w)
  /\ bskylisttool.normalize Sample.service ("did:plc:abc123" +:+ NL) w
     = (Ret (Some "did:plc:abc123"), w).
Proof.
  intros w. split; [|split].
  - exact (proj1 (proj1 (normalization_steps Sample.service Sample.self "u2"
                           ("   " +:+ NL) w) eq_refl)).
  - destruct (proj2 (normalization_steps Sample.service Sample.self "u2"
                       ("@alice.example" +:+ NL) w) eq_refl)
      as (_ & _ & _ & H & _).
    exact H.
  - destruct (proj2 (normalization_steps Sample.service Sample.self "u2"
                       ("did:plc:abc123" +:+ NL) w) eq_refl)
      as (_ & _ & _ & H & _).
    exact H.
Defined.

Lemma at_did_is_not_resolved_witness :
  bskylisttool.normalize Sample.service "@did:plc:abc" (Sample.world [])
  = (Ret (Some "did:plc:abc"), Sample.world []).
Proof.
  exact (proj1 (proj2 (at_did_is_not_resolved Sample.service "did:plc:abc"
                         (Sample.world []) eq_refl))).
Defined.

End NormalizationSample.

(** ** C5: adding twice *)

Section AddTwice.

Variable svc : Service.

Lemma creations_app (a b : list request) :
  creations (a ++ b) = creations a ++ creations b.
Proof. apply omap_app. Qed.

(** C5, as amended: two additions of the same subject to the same list
    send two membership-creation requests and nothing else, whatever was
    sent before: nothing is asked about the present members.  Each record
    carries the reading of the clock taken for it, so that the two
    records differ whenever the two readings do.  This holds of
    [add_user_to_list] and of the creation step of [add_file_to_list]. *)
Theorem add_twice_creates_two_records (self : bskylisttool.BskyListTool)
    (list subject : string) (w : World) :
  let first := {| rec_list := list; rec_subject := subject;
                  rec_created_at := srv_clock svc (ticks w) |} in
  let second := {| rec_list := list; rec_subject := subject;
                   rec_created_at := srv_clock svc (S (ticks w)) |} in
  let w1 := snd (bskyMassLister.add_user_to_list svc (Some subject) list w) in
  let w2 := snd (bskyMassLister.add_user_to_list svc (Some subject) list w1) in
  let v1 := snd (bskylisttool.create_listitem svc self list (Some subject) w) in
  let v2 := snd (bskylisttool.create_listitem svc self list (Some subject) v1) in
  log w2 = log w ++ [ CreateListitem bskyMassLister.BSKY_HANDLE first;
                      CreateListitem bskyMassLister.BSKY_HANDLE second ]
  /\ log v2 = log w ++ [ CreateListitem (bskylisttool.handle self) first;
                         CreateListitem (bskylisttool.handle self) second ]
  /\ (srv_clock svc (ticks w) <> srv_clock svc (S (ticks w)) -> first <> second).
Proof.
  cbn zeta. split; [|split].
  - unfold bskyMassLister.add_user_to_list, get_current_time_iso. unfold_monad.
    cbn [snd log ticks tick add_log]. now rewrite <- app_assoc.
  - unfold bskylisttool.create_listitem, get_current_time_iso. unfold_monad.
    cbn [snd log ticks tick add_log]. now rewrite <- app_assoc.
  - intros Hclock [= Heq]. now apply Hclock.
Qed.

End AddTwice.

Section AddTwiceSample.

Lemma add_twice_creates_two_records_witness :
  let w := Sample.world [] in
  let w1 := snd (bskyMassLister.add_user_to_list Sample.service (Some "did:plc:abc") "u2" w) in
  let w2 := snd (bskyMassLister.add_user_to_list Sample.service (Some "did:plc:abc") "u2" w1) in
  log w2
  = [ CreateListitem "chaosbengel.de"
        {| rec_list := "u2"; rec_subject := "did:plc:abc";
           rec_created_at := "2024-01-01T00:00:00" |};
      CreateListitem "chaosbengel.de"
        {| rec_list := "u2"; rec_subject := "did:plc:abc";
           rec_created_at := "2024-01-01T00:00:01" |} ]
  /\ {| rec_list := "u2"; rec_subject := "did:plc:abc";
        rec_created_at := "2024-01-01T00:00:00" |}
     <> {| rec_list := "u2"; rec_subject := "did:plc:abc";
           rec_created_at := "2024-01-01T00:00:01" |}.
Proof.
  intros w.
  destruct (add_twice_creates_two_records Sample.service Sample.self
              "u2" "did:plc:abc" w) as (Hlog & _ & Hdistinct).
  split; [exact Hlog|]. apply Hdistinct. discriminate.
Defined.

(** C5, as stated, fails on the timestamps: behind a clock that gives
    the same reading twice, the two requests carry the same record. *)
Lemma add_twice_same_timestamp_counterexample :
  let w := Sample.world [] in
  let w1 := snd (bskyMassLister.add_user_to_list Sample.frozen (Some "did:plc:abc") "u2" w) in
  let w2 := snd (bskyMassLister.add_user_to_list Sample.frozen (Some "did:plc:abc") "u2" w1) in
  map (fun c => rec_created_at (snd c)) (creations (log w2))
  = [ "2024-01-01T00:00:00"; "2024-01-01T00:00:00" ].
Proof. reflexivity. Qed.

End AddTwiceSample.

(** ** C6: a failing line *)

Section FailingLine.
Import bskylisttool.

Variable svc : Service.
Variable self : BskyListTool.
Variable uri : string.

Lemma normalize_creations (line : string) (w : World) :
  creations (log (snd (normalize svc line w))) = creations (log w).
Proof.
  unfold normalize. destruct (negb _); [|reflexivity].
  unfold_monad. cbn [snd log add_log]. rewrite creations_app. cbn. apply app_nil_r.
Qed.

(** What the creation step adds to the log: always the one request. *)
Lemma create_listitem_creations (subject : string) (w : World) :
  creations (log (snd (create_listitem svc self uri (Some subject) w)))
  = creations (log w)
    ++ [ (handle self, {| rec_list := uri; rec_subject := subject;
                          rec_created_at := srv_clock svc (ticks w) |}) ].
Proof.
  unfold create_listitem, get_current_time_iso. unfold_monad.
  cbn [snd log add_log tick]. now rewrite creations_app.
Qed.

Lemma accepted_cons (line : string) (rest : list string) :
  accepted (line :: rest)
  = if PyStr.all_space line then accepted rest else line :: accepted rest.
Proof.
  unfold accepted. rewrite filter_cons.
  destruct (PyStr.all_space line); now case_decide.
Qed.

(** A line that goes through adds one creation if it is accepted, and
    none if it is skipped. *)
Lemma add_line_done (line : string) (w w' : World) :
  add_line svc self uri line w = (Ret tt, w') ->
  exists new,
    creations (log w') = creations (log w) ++ map (pair (handle self)) new
    /\ Forall (fun r => rec_list r = uri) new
    /\ length new = length (accepted [line]).
Proof.
  unfold add_line. rewrite strip_truthy, accepted_cons.
  destruct (PyStr.all_space line); cbn [negb].
  - intros [= <-]. exists []. cbn. now rewrite app_nil_r.
  - unfold mbind, M_bind.
    pose proof (normalize_creations line w) as Hn.
    destruct (normalize svc line w) as [[[subject|]|e] w1]; cbn [snd] in Hn.
    + intros H.
      pose proof (create_listitem_creations subject w1) as Hc.
      rewrite H in Hc. cbn [snd] in Hc. rewrite Hn in Hc.
      eexists [_]. split; [exact Hc|]. split; [|reflexivity].
      now repeat constructor.
    + unfold create_listitem, get_current_time_iso. unfold_monad. discriminate.
    + discriminate.
Qed.

Lemma for_each_add_line_done (lines : list string) :
  forall w w',
    for_each (add_line svc self uri) lines w = (Ret tt, w') ->
    exists records,
      creations (log w') = creations (log w) ++ map (pair (handle self)) records
      /\ Forall (fun r => rec_list r = uri) records
      /\ length records = length (accepted lines).
Proof.
  induction lines as [|line lines IH]; intros w w' H.
  - injection H as <-. exists []. cbn. now rewrite app_nil_r.
  - rewrite for_each_cons in H. unfold mbind, M_bind in H.
    destruct (add_line svc self uri line w) as [[[]|e] w1] eqn:Hline; [|discriminate].
    destruct (add_line_done _ _ _ Hline) as (new & Hnew & Huri & Hlen).
    destruct (IH _ _ H) as (records & Hrecords & Huris & Hlens).
    exists (new ++ records). split; [|split].
    + now rewrite Hrecords, Hnew, map_app, app_assoc.
    + now apply Forall_app.
    + rewrite length_app, Hlen, Hlens, !accepted_cons.
      destruct (PyStr.all_space line); cbn; lia.
Qed.

(** A line whose body raises has sent at most the one creation that
    failed: none when its subject could not be determined. *)
Lemma add_line_raise (line : string) (w w' : World) (e : exn) :
  add_line svc self uri line w = (Raise e, w') ->
  creations (log w')
  = creations (log w)
    ++ match normalize svc line w with
       | (Ret (Some subject), w1) =>
           [ (handle self, {| rec_list := uri; rec_subject := subject;
                              rec_created_at := srv_clock svc (ticks w1) |}) ]
       | _ => []
       end.
Proof.
  unfold add_line. destruct (PyStr.truthy _); [|discriminate].
  unfold mbind, M_bind.
  pose proof (normalize_creations line w) as Hn.
  destruct (normalize svc line w) as [[[subject|]|e'] w1]; cbn [snd] in Hn.
  - intros H. pose proof (create_listitem_creations subject w1) as Hc.
    rewrite H in Hc. cbn [snd] in Hc. now rewrite Hn in Hc.
  - unfold create_listitem, get_current_time_iso. unfold_monad.
    intros [= _ <-]. cbn [log tick]. now rewrite Hn, app_nil_r.
  - intros [= _ <-]. now rewrite Hn, app_nil_r.
Qed.

(** C6: when the body of the loop raises on a line, [add_file_to_list]
    raises the same exception and ends in the world that line left: nothing
    is sent for the lines after it.  The creations sent by then are those
    sent before the run, then one per accepted line before the failing one,
    all for the resolved list and still there, then at most the creation
    that failed: it is there when the subject of the failing line was
    determined and the write itself failed, and absent when resolution
    failed. *)
Theorem add_file_stops_at_failing_line (listname file text : string)
    (pre post : list string) (line : string) (w w0 wp wf : World) (e : exn) :
  fs w !! file = Some text ->
  _get_list_uri svc listname (handle self) w = (Ret uri, w0) ->
  PyStr.file_lines text = pre ++ line :: post ->
  for_each (add_line svc self uri) pre w0 = (Ret tt, wp) ->
  add_line svc self uri line wp = (Raise e, wf) ->
  add_file_to_list svc self listname file w = (Raise e, wf)
  /\ exists records,
      length records = length (accepted pre)
      /\ Forall (fun r => rec_list r = uri) records
      /\ creations (log wp)
         = creations (log w) ++ map (pair (handle self)) records
      /\ creations (log wf)
         = creations (log wp)
           ++ match normalize svc line wp with
              | (Ret (Some subject), w1) =>
                  [ (handle self,
                     {| rec_list := uri; rec_subject := subject;
                        rec_created_at := srv_clock svc (ticks w1) |}) ]
              | _ => []
              end.
Proof.
  intros Hfile Huri Hlines Hpre Hline.
  pose proof (get_list_uri_world svc listname (handle self) w) as Hw0.
  rewrite Huri in Hw0. cbn [snd] in Hw0. subst w0.
  split.
  - rewrite (add_file_present svc self listname file text w Hfile).
    erewrite bind_ret by exact Huri.
    rewrite Hlines. now apply for_each_app_raise with (w' := wp).
  - destruct (for_each_add_line_done _ _ _ Hpre) as (records & Hrec & Huris & Hlen).
    exists records. split; [exact Hlen|]. split; [exact Huris|]. split.
    + rewrite Hrec. cbn [log add_log].
      rewrite creations_app. cbn. now rewrite app_nil_r.
    + exact (add_line_raise _ _ _ _ Hline).
Qed.

End FailingLine.

Section FailingLineSample.
Import bskylisttool.

(** In the first file the fourth line names a handle the resolver does
    not know; in the second the service refuses the write of the second
    line. *)
Lemma add_file_stops_at_failing_line_witness :
  let run text :=
    add_file_to_list Sample.service Sample.self "Friends" "subjects.txt"
      (Sample.world [("subjects.txt", text)]) in
  (fst (run Sample.subjects) = Raise ValidationError
   /\ map (fun c => rec_subject (snd c)) (creations (log (snd (run Sample.subjects))))
      = ["did:plc:a"; "did:plc:alice"])
  /\ (fst (run Sample.blocked) = Raise (External "RequestException")
      /\ map (fun c => rec_subject (snd c)) (creations (log (snd (run Sample.blocked))))
         = ["did:plc:a"; "did:plc:blocked"]).
Proof.
  intros run. split.
  - pose (w := Sample.world [("subjects.txt", Sample.subjects)]).
    pose (w0 := add_log (GetLists "me.example" None None) w).
    pose (pre := ["did:plc:a" +:+ NL; NL; "@alice.example" +:+ NL]).
    pose (wp := snd (for_each (add_line Sample.service Sample.self "u2") pre w0)).
    pose (wf := snd (add_line Sample.service Sample.self "u2" ("bob.example" +:+ NL) wp)).
    destruct (add_file_stops_at_failing_line Sample.service Sample.self "u2"
                "Friends" "subjects.txt" Sample.subjects
                pre ["did:plc:c" +:+ NL] ("bob.example" +:+ NL)
                w w0 wp wf ValidationError
                eq_refl eq_refl eq_refl eq_refl eq_refl) as [Hrun _].
    unfold run. fold w. rewrite Hrun. split; reflexivity.
  - pose (w := Sample.world [("subjects.txt", Sample.blocked)]).
    pose (w0 := add_log (GetLists "me.example" None None) w).
    pose (pre := ["did:plc:a" +:+ NL]).
    pose (wp := snd (for_each (add_line Sample.service Sample.self "u2") pre w0)).
    pose (wf := snd (add_line Sample.service Sample.self "u2" ("did:plc:blocked" +:+ NL) wp)).
    destruct (add_file_stops_at_failing_line Sample.service Sample.self "u2"
                "Friends" "subjects.txt" Sample.blocked
                pre ["did:plc:c" +:+ NL] ("did:plc:blocked" +:+ NL)
                w w0 wp wf (External "RequestException")
                eq_refl eq_refl eq_refl eq_refl eq_refl) as [Hrun _].
    unfold run. fold w. rewrite Hrun. split; reflexivity.
Defined.

End FailingLineSample.

(** ** C2: credentials and the cached token *)

Section Session.
Import bskylisttool.

Variable svc : Service.

Lemma read_token_from_file (path : string) (w : World) :
  _read_token_from_file (Some path) w
  = (Ret (option_map (PyStr.universal_newlines false) (fs w !! path)), w).
Proof.
  unfold _read_token_from_file, Path, path_exists, read_text, read_file.
  unfold_monad.
  destruct (fs w !! path) as [token|] eqn:E.
  - rewrite bool_decide_eq_true_2 by eauto. now rewrite E.
  - rewrite bool_decide_eq_false_2; [reflexivity|]. now intros [x [=]].
Qed.

(** Reading the credential file changes nothing. *)
Lemma file_credentials_world (cred_file : string) (w : World) :
  snd (file_credentials svc cred_file w) = w.
Proof.
  unfold file_credentials, path_exists, _parse_config_file, read_text, read_file.
  unfold_monad.
  destruct (bool_decide _); [|reflexivity].
  destruct (fs w !! cred_file) as [text|]; [|reflexivity].
  destruct (cfg_read_string svc _); [reflexivity|].
  destruct (cfg_get svc _ "top" "my_handle") as [h|[]]; try reflexivity.
  destruct (cfg_get svc _ "top" "app_password") as [p|[]]; reflexivity.
Qed.

Lemma or_from_file_pick (argument from_file : option string) (e : exn)
    (v : string) (w : World) :
  or_from_file argument from_file = Some v ->
  match argument with
  | None => match from_file with None => raise e | Some y => mret y end
  | Some y => mret y
  end w = (Ret v, w).
Proof.
  destruct argument, from_file; cbn; intros H; try discriminate;
    injection H as ->; reflexivity.
Qed.

Variables (handle password : option string) (cred_file token_file : string).
Variable w : World.
Variables file_handle file_pw : option string.
Hypothesis Hfile :
  file_credentials svc cred_file w = (Ret (file_handle, file_pw), w).



End Session.

Section SessionClaim.
Import bskylisttool.

Variable svc : Service.


End SessionClaim.

Section SessionSample.
Import bskylisttool.



(** The cached token is the text of the file as it is read: a line end
    written as carriage return and line feed reaches the service as a line
    feed. *)
Example init_token_read_as_text :
  let w := Sample.world [("config", "my_handle = me.example");
                         (".bsky.token", "tok" +:+ String PyStr.CR NL)] in
  log (snd (__init__ Sample.service None None (Some "config") (Some ".bsky.token") w))
  = [LoginSession ("tok" +:+ NL)].
Proof. reflexivity. Qed.

End SessionSample.

(** * Further properties *)

(** ** The session: token file and credentials *)

Section SessionFiles.
Import bskylisttool.

Variable svc : Service.

(** [save_token] raises what the opening of the token file raises, and
    else replaces the file by the exported session string. *)
Lemma save_token_world (self : BskyListTool) (path : string) (w : World) :
  token_file self = Some path ->
  save_token svc self w
  = match os_open_w svc path with
    | Some e => (Raise e, w)
    | None => (Ret tt, set_fs (insert path (srv_export_session_string svc (log w))) w)
    end.
Proof.
  intros Hpath. unfold save_token, open_w, write. rewrite Hpath. unfold_monad.
  destruct (os_open_w svc path); [reflexivity|].
  unfold set_fs. cbn [fs log ticks].
  now rewrite lookup_insert_eq, insert_insert_eq.
Qed.

(** A text without carriage return is read as it is. *)
Lemma universal_newlines_no_cr (s : string) :
  PyStr.split PyStr.CR s = [s] -> PyStr.universal_newlines false s = s.
Proof.
  induction s as [|c s IH]; intros Hs; [reflexivity|].
  cbn [PyStr.split PyStr.universal_newlines] in Hs |- *.
  destruct (Ascii.eqb c PyStr.CR); [discriminate|].
  rewrite andb_false_r.
  destruct (PyStr.split PyStr.CR s) as [|h t] eqn:E;
    [now apply split_nonempty in E|].
  injection Hs as -> ->. now rewrite IH.
Qed.

(** X1: when the token file can be opened for writing, [save_token]
    followed by [_read_token_from_file] gives back the session string the
    client exported, as a text file is read: a carriage return, alone or
    before a line feed, comes back as a line feed, so that a session string
    without carriage return comes back as it was.  The token file is
    replaced as a whole, the other files stay, and nothing is sent. *)
Theorem token_round_trip (self : BskyListTool) (path : string) (w : World) :
  token_file self = Some path ->
  os_open_w svc path = None ->
  let token := srv_export_session_string svc (log w) in
  let w' := snd (save_token svc self w) in
  fst (save_token svc self w) = Ret tt
  /\ _read_token_from_file (Some path) w'
     = (Ret (Some (PyStr.universal_newlines false token)), w')
  /\ (PyStr.split PyStr.CR token = [token] ->
      _read_token_from_file (Some path) w' = (Ret (Some token), w'))
  /\ fs w' = <[path := token]> (fs w)
  /\ log w' = log w.
Proof.
  intros Hpath Hopen token w'. subst w'.
  rewrite (save_token_world _ _ _ Hpath), Hopen.
  cbn [fst snd]. split; [reflexivity|].
  assert (_read_token_from_file (Some path) (set_fs (insert path token) w)
          = (Ret (Some (PyStr.universal_newlines false token)),
             set_fs (insert path token) w)) as Hread.
  { rewrite read_token_from_file. cbn [fs set_fs].
    now rewrite lookup_insert_eq. }
  split; [exact Hread|]. split; [|split; reflexivity].
  intros Hcr. rewrite (universal_newlines_no_cr _ Hcr) in Hread. exact Hread.
Qed.



(** [__init__] either raises where it started, or ends with one login. *)
Lemma init_cases (handle password cred_file token_file : option string) (w : World) :
  (exists e, __init__ svc handle password cred_file token_file w = (Raise e, w))
  \/ (exists o r,
         is_login r = true
         /\ __init__ svc handle password cred_file token_file w = (o, add_log r w)).
Proof.
  unfold __init__.
  destruct token_file as [tf|]; [|left; now eexists].
  erewrite bind_ret by apply read_token_from_file.
  destruct cred_file as [cf|]; [|left; now eexists].
  erewrite bind_ret by reflexivity.
  pose proof (file_credentials_world svc cf w) as Hw.
  destruct (file_credentials svc cf w) as [[[fh fp]|e] w1] eqn:Hcreds;
    cbn [snd] in Hw; subst w1.
  2:{ left. exists e. now apply bind_raise. }
  erewrite bind_ret by exact Hcreds. cbv beta iota.
  destruct (or_from_file handle fh) as [h|] eqn:Hh.
  2:{ left. eexists. apply bind_raise.
      destruct handle, fh; cbn in Hh; try discriminate. reflexivity. }
  erewrite bind_ret by (apply or_from_file_pick; exact Hh).
  destruct (or_from_file password fp) as [p|] eqn:Hp.
  2:{ left. eexists. apply bind_raise.
      destruct password, fp; cbn in Hp; try discriminate. reflexivity. }
  erewrite bind_ret by (apply or_from_file_pick; exact Hp).
  right. unfold_monad. destruct (fs w !! tf) as [text|]; cbn [option_map].
  - destruct (srv_login_session svc (log w) _);
      eexists _, (LoginSession _); now split.
  - destruct (srv_login svc (log w) h (Some p));
      eexists _, (Login h (Some p)); now split.
Qed.

(** X4: [__init__] writes no file and reads no clock, and sends at most
    one request, a login; when it returns a tool it has sent exactly that
    one login. *)
Theorem init_sends_at_most_a_login (handle password cred_file token_file : option string)
    (w : World) :
  let run := __init__ svc handle password cred_file token_file w in
  fs (snd run) = fs w
  /\ ticks (snd run) = ticks w
  /\ (log (snd run) = log w
      \/ exists r, is_login r = true /\ log (snd run) = log w ++ [r])
  /\ forall self,
      fst run = Ret self ->
      exists r, is_login r = true /\ log (snd run) = log w ++ [r].
Proof.
  intros run. subst run.
  destruct (init_cases handle password cred_file token_file w)
    as [[e ->]|(o & r & Hr & ->)]; cbn [fst snd fs ticks log add_log].
  - repeat split; [now left | discriminate].
  - repeat split; [right|intros _ _]; now exists r.
Qed.

End SessionFiles.

(** ** Adding a file to a list *)

Section AddFile.
Import bskylisttool.

Variable svc : Service.
Variable self : BskyListTool.


(** X6: the list is looked up among the lists of the tool's own handle,
    and when that lookup raises, [add_file_to_list] raises the same
    exception after this one request: no line is resolved or added. *)
Theorem add_file_unknown_list (listname file text : string) (w : World) (e : exn) :
  fs w !! file = Some text ->
  fst (_get_list_uri svc listname (handle self) w) = Raise e ->
  add_file_to_list svc self listname file w
  = (Raise e, add_log (GetLists (handle self) None None) w).
Proof.
  intros Hfile Hlist. rewrite (add_file_present svc self listname file text w Hfile).
  apply bind_raise.
  rewrite (surjective_pairing (_get_list_uri _ _ _ _)).
  now rewrite Hlist, get_list_uri_world.
Qed.

Lemma normalize_frame (line : string) (w : World) :
  fs (snd (normalize svc line w)) = fs w.
Proof. unfold normalize. now destruct (negb _). Qed.

Lemma add_line_frame (uri line : string) (w : World) :
  fs (snd (add_line svc self uri line w)) = fs w.
Proof.
  unfold add_line. destruct (PyStr.truthy _); [|reflexivity].
  unfold mbind, M_bind.
  pose proof (normalize_frame line w) as Hn.
  destruct (normalize svc line w) as [[[subject|]|e] w1]; cbn [snd] in Hn |- *;
    exact Hn.
Qed.

Lemma for_each_add_line_frame (uri : string) (lines : list string) :
  forall w, fs (snd (for_each (add_line svc self uri) lines w)) = fs w.
Proof.
  induction lines as [|line lines IH]; intros w; [reflexivity|].
  rewrite for_each_cons. unfold mbind, M_bind.
  pose proof (add_line_frame uri line w) as Hline.
  destruct (add_line svc self uri line w) as [[[]|e] w1]; cbn [snd] in Hline |- *.
  - now rewrite IH.
  - exact Hline.
Qed.

(** X7: whatever its outcome, [add_file_to_list] leaves every file as
    it was. *)
Theorem add_file_writes_no_file (listname file : string) (w : World) :
  fs (snd (add_file_to_list svc self listname file w)) = fs w.
Proof.
  unfold add_file_to_list, path_exists.
  erewrite bind_ret by reflexivity.
  destruct (negb _); [reflexivity|].
  unfold mbind at 1. unfold M_bind at 1.
  pose proof (get_list_uri_world svc listname (handle self) w) as Hw.
  destruct (_get_list_uri svc listname (handle self) w) as [[uri|e] w0];
    cbn [snd] in Hw; subst w0; [|reflexivity].
  unfold mbind, M_bind, read_file. cbn [fs add_log].
  destruct (bool_decide _); [|reflexivity]. cbn [fs add_log].
  destruct (fs w !! file) as [text|]; [|reflexivity].
  now rewrite for_each_add_line_frame.
Qed.

End AddFile.

Section DidFile.
Import bskylisttool.

Variable svc : Service.
Variable self : BskyListTool.
Variable uri : string.

Hypothesis accepts :
  forall h repo record, srv_create_listitem svc h repo record = Ret tt.

(** The creation request of the [i]-th accepted line after [t] clock
    readings. *)
Let creation (t i : nat) (line : string) : request :=
  CreateListitem (handle self)
    {| rec_list := uri; rec_subject := PyStr.rstrip line;
       rec_created_at := srv_clock svc (t + i) |}.

Lemma startswith_did_not_at (s : string) :
  PyStr.startswith "did:" s = true -> PyStr.startswith "@" s = false.
Proof.
  destruct s as [|a s]; [discriminate|]. cbn [PyStr.startswith].
  intros H. apply andb_prop in H as [Ha _]. apply Ascii.eqb_eq in Ha. now subst a.
Qed.

Lemma add_line_did (line : string) (w : World) :
  PyStr.all_space line = false ->
  PyStr.startswith "did:" (PyStr.rstrip line) = true ->
  add_line svc self uri line w
  = (Ret tt, {| fs := fs w; log := log w ++ [creation (ticks w) 0 line];
                ticks := S (ticks w) |}).
Proof.
  intros Hline Hdid. unfold add_line, normalize.
  rewrite strip_truthy, Hline, (startswith_did_not_at _ Hdid), Hdid. cbn [negb].
  unfold create_listitem, get_current_time_iso. unfold_monad.
  rewrite accepts. unfold creation, add_log, tick. cbn [fs log ticks].
  now rewrite Nat.add_0_r.
Qed.

Lemma for_each_did_lines (lines : list string) :
  Forall (fun line => PyStr.startswith "did:" (PyStr.rstrip line) = true)
         (accepted lines) ->
  forall w,
    for_each (add_line svc self uri) lines w
    = (Ret tt, {| fs := fs w;
                  log := log w ++ imap (creation (ticks w)) (accepted lines);
                  ticks := ticks w + length (accepted lines) |}).
Proof.
  induction lines as [|line lines IH]; intros Hdids w.
  - cbn. rewrite app_nil_r, Nat.add_0_r. now destruct w.
  - rewrite for_each_cons. rewrite accepted_cons in Hdids |- *.
    destruct (PyStr.all_space line) eqn:Hline.
    + erewrite bind_ret.
      2:{ unfold add_line. now rewrite strip_truthy, Hline. }
      now apply IH.
    + apply Forall_cons in Hdids as [Hdid Hdids].
      erewrite bind_ret by (now apply add_line_did).
      rewrite (IH Hdids). cbn [fs log ticks length imap].
      f_equal. f_equal; [|lia].
      rewrite <- app_assoc. cbn [app]. do 2 f_equal.
      apply imap_ext. intros i x _. unfold creation. cbn. do 3 f_equal. lia.
Qed.

(** X8: when every accepted line of the file starts with did: and the
    service accepts the writes, [add_file_to_list] returns after the list
    lookup and one creation per accepted line, in the order of the file:
    the subject is the line less its trailing white space, the timestamp the
    next reading of the clock, and the resolver is never asked. *)
Theorem add_file_of_dids (listname file text : string) (w w0 : World) :
  fs w !! file = Some text ->
  _get_list_uri svc listname (handle self) w = (Ret uri, w0) ->
  Forall (fun line => PyStr.startswith "did:" (PyStr.rstrip line) = true)
         (accepted (PyStr.file_lines text)) ->
  let run := add_file_to_list svc self listname file w in
  fst run = Ret tt
  /\ log (snd run)
     = log w ++ GetLists (handle self) None None
               :: imap (fun i line =>
                          CreateListitem (handle self)
                            {| rec_list := uri; rec_subject := PyStr.rstrip line;
                               rec_created_at := srv_clock svc (ticks w + i) |})
                       (accepted (PyStr.file_lines text))
  /\ resolutions (log (snd run)) = resolutions (log w).
Proof.
  intros Hfile Huri Hdids run.
  pose proof (get_list_uri_world svc listname (handle self) w) as Hw0.
  rewrite Huri in Hw0. cbn [snd] in Hw0. subst w0.
  assert (run = (Ret tt,
                 {| fs := fs w;
                    log := (log w ++ [GetLists (handle self) None None])
                           ++ imap (creation (ticks w))
                                (accepted (PyStr.file_lines text));
                    ticks := ticks w + length (accepted (PyStr.file_lines text)) |}))
    as ->.
  { subst run. rewrite (add_file_present svc self listname file text w Hfile).
    erewrite bind_ret by exact Huri.
    now rewrite (for_each_did_lines _ Hdids). }
  cbn [fst snd log]. split; [reflexivity|]. split.
  - now rewrite <- app_assoc.
  - unfold resolutions. rewrite !omap_app. cbn [omap].
    assert (forall t l, omap (fun r => match r with IdResolve h => Some h | _ => None end)
                          (imap (creation t) l) = []) as ->.
    { intros t l. revert t. induction l as [|x l IH]; intros t; [reflexivity|].
      cbn [imap omap]. unfold creation at 1. cbn.
      rewrite <- (IH (S t)). f_equal. apply imap_ext. intros i y _.
      unfold creation. cbn. do 3 f_equal. lia. }
    now rewrite !app_nil_r.
Qed.

End DidFile.

(** ** What normalization leaves alone *)

Section NormalizationEdges.
Import PyStr.

Variable svc : Service.

Lemma rstrip_nonblank (s : string) : all_space s = false -> rstrip s <> "".
Proof.
  intros H. destruct (rstrip_last s H) as (c & Hc & _).
  intros E. now rewrite E in Hc.
Qed.

(** X9: white space at the start of a line is kept.  A line that starts
    with white space and is not blank is sent to the resolver with that
    white space in front, even when a '@' or did: comes after it. *)
Theorem leading_space_is_resolved (c : ascii) (s : string) (w : World) :
  isspace c = true ->
  all_space s = false ->
  let handle := String c (rstrip s) in
  truthy (strip (String c s)) = true
  /\ bskylisttool.normalize svc (String c s) w
     = (srv_id_resolve svc (log w) handle, add_log (IdResolve handle) w).
Proof.
  intros Hc Hs handle. split.
  - rewrite strip_truthy. cbn [all_space]. now rewrite Hs, andb_false_r.
  - unfold bskylisttool.normalize.
    assert (rstrip (String c s) = handle) as ->.
    { cbn [rstrip]. pose proof (rstrip_nonblank s Hs).
      subst handle. now destruct (rstrip s). }
    subst handle.
    assert (startswith "@" (String c (rstrip s)) = false) as ->.
    { cbn [startswith]. destruct (Ascii.eqb_spec "@" c) as [<-|]; [discriminate|].
      reflexivity. }
    assert (startswith "did:" (String c (rstrip s)) = false) as ->.
    { cbn [startswith]. destruct (Ascii.eqb_spec "d" c) as [<-|]; [discriminate|].
      reflexivity. }
    reflexivity.
Qed.

(** X10: one '@' is dropped, not more: of a line that starts with two,
    what follows the first is sent to the resolver, second '@' included. *)
Theorem only_one_at_is_dropped (s : string) (w : World) :
  let handle := String "@" (rstrip s) in
  bskylisttool.normalize svc ("@@" +:+ s) w
  = (srv_id_resolve svc (log w) handle, add_log (IdResolve handle) w).
Proof.
  intros handle. unfold bskylisttool.normalize.
  rewrite !append_cons, append_nil_l.
  rewrite !rstrip_cons by reflexivity.
  change (startswith "@" (String "@" (String "@" (rstrip s)))) with true.
  cbn [slice_from_1]. reflexivity.
Qed.

End NormalizationEdges.

(** ** Pagination that does not end well *)

Section CollectFailures.

Variable fetch : list request -> option string -> outcome page.
Variable mk : option string -> request.
Variable file : string.

Lemma collect_interrupted h c pages e :
  interrupted fetch mk h c pages e ->
  forall fuel w old,
    log w = h -> fs w !! file = Some old -> length pages < fuel ->
    collect fetch mk file fuel c w
    = Some (Raise e,
            {| fs := <[file := old +:+ one_per_line (all_items pages)]> (fs w);
               log := log w ++ map mk (c :: map next pages);
               ticks := ticks w |}).
Proof.
  induction 1 as [h c e He | h c p c' rest e Hp Hnext Hrest IH];
    intros fuel w old Hlog Hold Hfuel.
  - destruct fuel as [|fuel]; [cbn in Hfuel; lia|].
    cbn [collect]. unfold send. rewrite Hlog, He.
    unfold all_items, add_log. cbn [map concat one_per_line foldr].
    rewrite append_nil_r, insert_id by exact Hold. now rewrite Hlog.
  - destruct fuel as [|fuel]; [cbn in Hfuel; lia|].
    cbn [collect]. unfold send. rewrite Hlog, Hp.
    erewrite write_lines by exact Hold. rewrite Hnext.
    erewrite IH.
    + f_equal. f_equal. cbn [fs log ticks add_log]. rewrite insert_insert_eq.
      f_equal.
      * unfold all_items. cbn [map concat].
        now rewrite one_per_line_app, append_assoc.
      * rewrite <- app_assoc. cbn [app map]. now rewrite Hnext, Hlog.
    + cbn [log add_log]. now rewrite Hlog.
    + cbn [fs]. apply lookup_insert_eq.
    + cbn [length] in Hfuel. lia.
Qed.

Lemma for_each_write_ret (values : list string) :
  forall w, fst (for_each (fun v => write file (v +:+ NL)) values w) = Ret tt.
Proof.
  induction values as [|v values IH]; intros w; [reflexivity|].
  rewrite for_each_cons. erewrite bind_ret by reflexivity. apply IH.
Qed.

(** Against an endpoint that always hands out a cursor no fuel is enough. *)
Lemma collect_endless :
  endless fetch ->
  forall fuel c w, collect fetch mk file fuel c w = None.
Proof.
  intros Hendless. induction fuel as [|fuel IH]; intros c w; [reflexivity|].
  cbn [collect]. unfold send.
  destruct (Hendless (log w) c) as (p & c' & Hp & Hnext). rewrite Hp.
  pose proof (for_each_write_ret (items p) (add_log (mk c) w)) as Hwrite.
  destruct (for_each _ (items p) _) as [[[]|e] w1]; cbn [fst] in Hwrite;
    [|discriminate].
  rewrite Hnext. apply IH.
Qed.

End CollectFailures.

Section InterruptedRuns.
Import bskylisttool.

Variable svc : Service.

Lemma then_loop_cut_short {A} (before : M A)
    (loop : A -> nat -> World -> option (outcome unit * World))
    (fetch : list request -> option string -> outcome page)
    (mk : option string -> request) (file : string) (pages : list page)
    (e : exn) (a : A) (w w0 : World) :
  os_open_w svc file = None ->
  before w = (Ret a, w0) -> fs w0 = fs w ->
  (forall fuel w1, loop a fuel w1 = collect fetch mk file fuel None w1) ->
  interrupted fetch mk (log w0) None pages e ->
  cut_short (fun fuel => then_loop svc before (fun x => loop x fuel) file)
            mk file pages e w w0.
Proof.
  intros Hopen Hbefore Hfs Hloop Hcut. eexists. split; [|split].
  - intros fuel Hfuel. unfold then_loop, open_w. rewrite Hbefore, Hopen.
    rewrite Hloop.
    eapply (collect_interrupted _ _ _ _ _ _ _ Hcut); [reflexivity| |exact Hfuel].
    cbn [fs set_fs]. apply lookup_insert_eq.
  - cbn [fs set_fs]. rewrite insert_insert_eq, Hfs. reflexivity.
  - reflexivity.
Qed.

(** X11: when the output file can be opened for writing and the
    endpoint raises after some pages, each of [get_followers],
    [backup_list] and [get_likes] raises the same exception, and the output
    file is left with the values of the pages received so far, in order,
    one per line: empty when the first request fails, whatever the file
    held before. *)
Theorem pagination_cut_short (file : string) (pages : list page) (e : exn) (w : World) :
  os_open_w svc file = None ->
  (forall handle,
      interrupted (fetch_followers svc handle) (GetFollowers handle (Some 100))
                  (log w) None pages e ->
      cut_short (fun fuel => get_followers svc fuel handle file)
                (GetFollowers handle (Some 100)) file pages e w w)
  /\ (forall listname owner uri w0,
         _get_list_uri svc listname owner w = (Ret uri, w0) ->
         interrupted (fetch_list svc uri) (GetList uri (Some 100)) (log w0) None pages e ->
         cut_short (fun fuel => backup_list svc fuel listname owner file)
                   (GetList uri (Some 100)) file pages e w w0)
  /\ (forall post_url at_uri w0,
         _link_to_at_uri svc post_url w = (Ret at_uri, w0) ->
         interrupted (fetch_likes svc at_uri) (GetLikes at_uri (Some 100)) (log w0) None pages e ->
         cut_short (fun fuel => get_likes svc fuel post_url file)
                   (GetLikes at_uri (Some 100)) file pages e w w0).
Proof.
  intros Hopen. split; [|split].
  - intros handle Hcut.
    apply (then_loop_cut_short (mret tt)
             (fun _ fuel => get_followers_loop svc handle file fuel None)
             (fetch_followers svc handle) _ file pages e tt w w Hopen);
      try reflexivity; [|exact Hcut].
    intros fuel w1. apply get_followers_loop_collect.
  - intros listname owner uri w0 Huri Hcut.
    pose proof (get_list_uri_world svc listname owner w) as Hw.
    rewrite Huri in Hw. cbn [snd] in Hw.
    apply (then_loop_cut_short (_get_list_uri svc listname owner)
             (fun uri fuel => backup_list_loop svc uri file fuel None)
             (fetch_list svc uri) _ file pages e uri w w0 Hopen);
      [exact Huri | now subst w0 | | exact Hcut].
    intros fuel w1. apply backup_list_loop_collect.
  - intros post_url at_uri w0 Huri Hcut.
    destruct (link_to_at_uri_frame svc _ _ _ _ Huri) as [Hfs _].
    apply (then_loop_cut_short (_link_to_at_uri svc post_url)
             (fun at_uri fuel => get_likes_loop svc at_uri file fuel None)
             (fetch_likes svc at_uri) _ file pages e at_uri w w0 Hopen);
      [exact Huri | exact Hfs | | exact Hcut].
    intros fuel w1. apply get_likes_loop_collect.
Qed.

(** X12: the loops have no bound of their own.  Against an endpoint
    that hands out a cursor with every page, none of the three loops
    returns, whatever the fuel, and so [get_followers], once it has opened
    its output file, does not return either. *)
Theorem loops_need_a_last_page (file : string) :
  (forall handle,
      os_open_w svc file = None ->
      endless (fetch_followers svc handle) ->
      forall fuel w, get_followers svc fuel handle file w = None)
  /\ (forall uri,
         endless (fetch_list svc uri) ->
         forall fuel c w, backup_list_loop svc uri file fuel c w = None)
  /\ (forall at_uri,
         endless (fetch_likes svc at_uri) ->
         forall fuel c w, get_likes_loop svc at_uri file fuel c w = None).
Proof.
  split; [|split].
  - intros handle Hopen Hendless fuel w. unfold get_followers, then_loop, open_w.
    cbn [mret M_ret]. rewrite Hopen, get_followers_loop_collect.
    now apply collect_endless.
  - intros uri Hendless fuel c w. rewrite backup_list_loop_collect.
    now apply collect_endless.
  - intros at_uri Hendless fuel c w. rewrite get_likes_loop_collect.
    now apply collect_endless.
Qed.

(** X13: when the name cannot be resolved, the output file is neither
    created nor emptied.  [backup_list] whose list lookup raises, and
    [get_likes] whose URL does not parse or whose handle does not resolve,
    raise that exception with every file as it was, whatever the fuel. *)
Theorem unresolved_name_keeps_the_file (fuel : nat) (file : string) (w : World)
    (e : exn) :
  (forall listname owner,
      fst (_get_list_uri svc listname owner w) = Raise e ->
      backup_list svc fuel listname owner file w
      = Some (Raise e, add_log (GetLists owner None None) w))
  /\ (forall post_url,
         fst (_link_to_at_uri svc post_url w) = Raise e ->
         exists w',
           get_likes svc fuel post_url file w = Some (Raise e, w')
           /\ fs w' = fs w).
Proof.
  split.
  - intros listname owner He. unfold backup_list, then_loop.
    rewrite (surjective_pairing (_get_list_uri _ _ _ _)).
    now rewrite He, get_list_uri_world.
  - intros post_url He. unfold get_likes, then_loop.
    destruct (_link_to_at_uri svc post_url w) as [o w'] eqn:E.
    cbn [fst] in He. subst o. exists w'. split; [reflexivity|].
    now destruct (link_to_at_uri_frame svc _ _ _ _ E).
Qed.

End InterruptedRuns.

(** ** The two scripts *)

Section Scripts.

Variable svc : Service.

Lemma scan_target_list_scan (lists : list ListView) :
  bskyMassLister.scan_target_list lists
  = bskylisttool.scan_lists bskyMassLister.TARGET_LIST lists.
Proof. induction lists as [|l lists IH]; cbn; [reflexivity | now rewrite IH]. Qed.

(** X14: [get_list_uri] of bskyMassLister.py does not look at the name
    it is given.  Whatever that name, it returns the uri of the first list
    named Hatespam, and raises ListNotFoundException when there is none,
    even if a list of the given name is there. *)
Theorem mass_lister_looks_for_target_list (list_name : string) (w : World)
    (lists : list ListView) :
  srv_raw_get_lists svc (log w)
    "https://public.api.bsky.app/xrpc/app.bsky.graph.getLists?actor=chaosbengel.de"
  = Ret lists ->
  (forall before l after,
      lists = before ++ l :: after ->
      lv_name l = "Hatespam" ->
      (forall x, In x before -> lv_name x <> "Hatespam") ->
      fst (bskyMassLister.get_list_uri svc list_name w) = Ret (lv_uri l))
  /\ ((forall x, In x lists -> lv_name x <> "Hatespam") ->
      exists message,
        fst (bskyMassLister.get_list_uri svc list_name w)
        = Raise (ListNotFoundException message)).
Proof.
  intros Hlists. unfold bskyMassLister.get_list_uri. unfold_monad.
  change (bskyMassLister.BSKY_API_URL +:+ "/xrpc/app.bsky.graph.getLists?actor="
          +:+ bskyMassLister.BSKY_HANDLE)
    with "https://public.api.bsky.app/xrpc/app.bsky.graph.getLists?actor=chaosbengel.de".
  rewrite Hlists, scan_target_list_scan. unfold bskyMassLister.TARGET_LIST. split.
  - intros before l after -> Hl Hbefore.
    now rewrite (scan_lists_first _ _ _ _ Hl Hbefore).
  - intros Hnone. rewrite (scan_lists_none _ _ Hnone). now eexists.
Qed.


(** Once its request is answered, [backup_list] of bskyListBackup.py
    raises what the opening of the file raises, and else writes the members
    of the answer. *)
Lemma list_backup_answered (list_uri file : string) (w : World)
    (bskylist : GetListResponse) :
  srv_get_list svc (log w) list_uri None None = Ret bskylist ->
  bskyListBackup.backup_list svc list_uri file w
  = match os_open_w svc file with
    | Some e => (Raise e, add_log (GetList list_uri None None) w)
    | None =>
        (Ret tt,
         {| fs := <[file := one_per_line
                              (map (fun entry => pv_did (li_subject entry))
                                   (gl_items bskylist))]> (fs w);
            log := log w ++ [GetList list_uri None None];
            ticks := ticks w |})
    end.
Proof.
  intros Hlist. unfold bskyListBackup.backup_list.
  erewrite bind_ret by (unfold send; rewrite Hlist; reflexivity).
  destruct (os_open_w svc file) as [e|] eqn:Hopen.
  - apply bind_raise. unfold open_w. now rewrite Hopen.
  - erewrite bind_ret by (unfold open_w; rewrite Hopen; reflexivity).
    rewrite (for_each_map (fun entry => pv_did (li_subject entry))
               (fun v => write file (v +:+ NL))).
    erewrite write_lines by (cbn [fs set_fs add_log]; apply lookup_insert_eq).
    cbn [fs log ticks set_fs add_log]. now rewrite insert_insert_eq.
Qed.

(** X16: [backup_list] of bskyListBackup.py stops after the first page.
    It sends one request, with neither limit nor cursor, and, when the
    file can be opened for writing, writes the members of that answer, one
    per line, whether or not the answer carries a cursor.  When the file
    cannot be opened it raises what the opening raises, after the request;
    when the request raises it raises that, and in both cases every file is
    left as it was. *)
Theorem list_backup_first_page_only (list_uri file : string) (w : World) :
  (forall bskylist,
      srv_get_list svc (log w) list_uri None None = Ret bskylist ->
      os_open_w svc file = None ->
      bskyListBackup.backup_list svc list_uri file w
      = (Ret tt,
         {| fs := <[file := one_per_line
                              (map (fun entry => pv_did (li_subject entry))
                                   (gl_items bskylist))]> (fs w);
            log := log w ++ [GetList list_uri None None];
            ticks := ticks w |}))
  /\ (forall bskylist e,
         srv_get_list svc (log w) list_uri None None = Ret bskylist ->
         os_open_w svc file = Some e ->
         bskyListBackup.backup_list svc list_uri file w
         = (Raise e, add_log (GetList list_uri None None) w))
  /\ (forall e,
         srv_get_list svc (log w) list_uri None None = Raise e ->
         bskyListBackup.backup_list svc list_uri file w
         = (Raise e, add_log (GetList list_uri None None) w)).
Proof.
  split; [|split].
  - intros bskylist Hlist Hopen.
    now rewrite (list_backup_answered _ _ _ _ Hlist), Hopen.
  - intros bskylist e Hlist Hopen.
    now rewrite (list_backup_answered _ _ _ _ Hlist), Hopen.
  - intros e Hlist. unfold bskyListBackup.backup_list.
    apply bind_raise. unfold send. now rewrite Hlist.
Qed.

End Scripts.

(** ** The command line *)

Section CommandLine.
Import bskylisttool.

Variable svc : Service.

(** The tool remembers the path of the token file it was given. *)
Lemma init_token_file (handle password cred_file token_file : option string)
    (w w' : World) (self : BskyListTool) :
  __init__ svc handle password cred_file token_file w = (Ret self, w') ->
  bskylisttool.token_file self = token_file.
Proof.
  unfold __init__.
  destruct token_file as [tf|]; [|discriminate].
  erewrite bind_ret by apply read_token_from_file.
  destruct cred_file as [cf|]; [|discriminate].
  erewrite bind_ret by reflexivity.
  pose proof (file_credentials_world svc cf w) as Hw.
  destruct (file_credentials svc cf w) as [[[fh fp]|e] w1] eqn:Hcreds;
    cbn [snd] in Hw; subst w1.
  2:{ erewrite bind_raise by exact Hcreds. discriminate. }
  erewrite bind_ret by exact Hcreds. cbv beta iota.
  destruct (or_from_file handle fh) as [h|] eqn:Hh.
  2:{ erewrite bind_raise; [discriminate|].
      destruct handle, fh; cbn in Hh; try discriminate. reflexivity. }
  erewrite bind_ret by (apply or_from_file_pick; exact Hh).
  destruct (or_from_file password fp) as [p|] eqn:Hp.
  2:{ erewrite bind_raise; [discriminate|].
      destruct password, fp; cbn in Hp; try discriminate. reflexivity. }
  erewrite bind_ret by (apply or_from_file_pick; exact Hp).
  unfold_monad. destruct (fs w !! tf) as [text|]; cbn [option_map].
  - destruct (srv_login_session svc (log w) _); now intros [= <- _].
  - destruct (srv_login svc (log w) h (Some p)); now intros [= <- _].
Qed.

Lemma main_after_init (fuel : nat) (args : cli.Namespace) (w w1 w2 : World)
    (tool : BskyListTool) (result : outcome unit) :
  __init__ svc None None (Some "./config") (Some "./.bsky.token") w = (Ret tool, w1) ->
  cli.dispatch svc fuel tool args w1 = Some (result, w2) ->
  cli.main svc fuel args w
  = Some match os_open_w svc "./.bsky.token" with
         | None =>
             (result,
              set_fs (insert "./.bsky.token" (srv_export_session_string svc (log w2))) w2)
         | Some e => (Raise e, w2)
         end.
Proof.
  intros Hinit Hbody. unfold cli.main, cli.__enter__, cli.__exit__.
  rewrite Hinit. cbn [mret M_ret]. rewrite Hbody.
  rewrite (save_token_world svc tool "./.bsky.token" w2 (init_token_file _ _ _ _ _ _ _ Hinit)).
  now destruct (os_open_w svc "./.bsky.token").
Qed.

(** X17: the token is saved on the way out, also when the command
    failed.  Once the tool is constructed, whatever the command returns or
    raises is what [main] returns or raises, after the token file has been
    replaced by the session string exported at that moment; no other file
    is touched on the way out and nothing is sent.  Should the system
    refuse to open the token file, it is what the opening raises that
    [main] raises, with the files as the command left them.  When the
    constructor raises, the command does not run and the token file stays
    as it was. *)
Theorem main_saves_the_token (fuel : nat) (args : cli.Namespace) (w : World) :
  (forall tool w1 result w2,
      __init__ svc None None (Some "./config") (Some "./.bsky.token") w = (Ret tool, w1) ->
      cli.dispatch svc fuel tool args w1 = Some (result, w2) ->
      cli.main svc fuel args w
      = Some match os_open_w svc "./.bsky.token" with
             | None =>
                 (result,
                  {| fs := <["./.bsky.token" := srv_export_session_string svc (log w2)]>
                             (fs w2);
                     log := log w2; ticks := ticks w2 |})
             | Some e => (Raise e, w2)
             end)
  /\ (forall e w1,
         __init__ svc None None (Some "./config") (Some "./.bsky.token") w = (Raise e, w1) ->
         cli.main svc fuel args w = Some (Raise e, w1) /\ fs w1 = fs w).
Proof.
  split.
  - intros tool w1 result w2 Hinit Hbody.
    now rewrite (main_after_init _ _ _ _ _ _ _ Hinit Hbody).
  - intros e w1 Hinit. unfold cli.main. rewrite Hinit. split; [reflexivity|].
    destruct (init_cases svc None None (Some "./config") (Some "./.bsky.token") w)
      as [[e' He]|(o & r & _ & Hrun)].
    + rewrite Hinit in He. now injection He as _ ->.
    + rewrite Hinit in Hrun. now injection Hrun as _ ->.
Qed.

(** X18: [fetch] with no operation is accepted and does nothing: after
    the login, [main] saves the token and returns, whatever the fuel
    (should the system refuse to open the token file, it raises what the
    opening raises). *)
Theorem main_fetch_without_operation (fuel : nat) (w w1 : World) (tool : BskyListTool) :
  __init__ svc None None (Some "./config") (Some "./.bsky.token") w = (Ret tool, w1) ->
  cli.main svc fuel cli.fetch_nothing w
  = Some match os_open_w svc "./.bsky.token" with
         | None =>
             (Ret tt,
              {| fs := <["./.bsky.token" := srv_export_session_string svc (log w1)]> (fs w);
                 log := log w1; ticks := ticks w |})
         | Some e => (Raise e, w1)
         end
  /\ exists r, is_login r = true /\ log w1 = log w ++ [r].
Proof.
  intros Hinit.
  pose proof (init_cases svc None None (Some "./config") (Some "./.bsky.token") w)
    as [[e He]|(o & r & Hr & Hrun)].
  { rewrite Hinit in He. discriminate. }
  rewrite Hinit in Hrun. injection Hrun as _ ->.
  split; [|now exists r].
  now rewrite (main_after_init fuel cli.fetch_nothing _ _ _ _ _ Hinit eq_refl).
Qed.

Lemma split_before_separator (sep : ascii) (a b : string) :
  PyStr.split sep a = [a] ->
  PyStr.split sep (a +:+ String sep b) = a :: PyStr.split sep b.
Proof.
  induction a as [|c a IH]; intros Ha.
  - rewrite append_nil_l. cbn [PyStr.split]. now rewrite Ascii.eqb_refl.
  - rewrite append_cons. cbn [PyStr.split] in Ha |- *.
    destruct (Ascii.eqb c sep); [discriminate|].
    destruct (PyStr.split sep a) as [|h t] eqn:E; [now apply split_nonempty in E|].
    injection Ha as -> ->. now rewrite IH.
Qed.

(** X19: a post URL as the web client shows it is parsed whatever its
    host and whatever stands where the words profile and post do.  When
    the host, the two words, the handle and the record key hold no '/', the
    handle is the one resolved and the record key the one used. *)
Theorem link_of_a_post_page (host a handle b rkey X : string) (w : World) :
  PyStr.split "/" host = [host] ->
  PyStr.split "/" a = [a] ->
  PyStr.split "/" handle = [handle] ->
  PyStr.split "/" b = [b] ->
  PyStr.split "/" rkey = [rkey] ->
  srv_resolve_handle svc (log w) handle = Ret X ->
  _link_to_at_uri svc
    ("https://" +:+ host +:+ "/" +:+ a +:+ "/" +:+ handle +:+ "/" +:+ b +:+ "/" +:+ rkey) w
  = (Ret ("at://" +:+ X +:+ "/app.bsky.feed.post/" +:+ rkey),
     add_log (ResolveHandle handle) w).
Proof.
  intros Hhost Ha Hhandle Hb Hrkey HX.
  assert (PyStr.split "/"
            ("https://" +:+ host +:+ "/" +:+ a +:+ "/" +:+ handle +:+ "/" +:+ b
             +:+ "/" +:+ rkey)
          = ["https:"; ""; host; a; handle; b; rkey]) as Hsplit.
  { change ("https://" +:+ host +:+ "/" +:+ a +:+ "/" +:+ handle +:+ "/" +:+ b
            +:+ "/" +:+ rkey)
      with ("https:" +:+ String "/" ("" +:+ String "/"
              (host +:+ String "/" (a +:+ String "/" (handle +:+ String "/"
                 (b +:+ String "/" rkey)))))).
    rewrite !split_before_separator by (assumption || reflexivity).
    now rewrite Hrkey. }
  unfold _link_to_at_uri. rewrite Hsplit.
  erewrite bind_ret by reflexivity.
  erewrite bind_ret by reflexivity.
  unfold_monad. now rewrite HX.
Qed.

End CommandLine.

(** ** bskyListBackup.py as a whole *)

Section ListBackup.

Variable svc : Service.

Let lists_url : string :=
  "https://public.api.bsky.app/xrpc/app.bsky.graph.getLists?actor=chaosbengel.de".

(** X20: [get_list_uri] of bskyListBackup.py looks for the name it is
    given among the lists of the fixed account: it returns the uri of the
    first list of that name and raises ListNotFoundException when there is
    none; one request is sent in either case. *)
Theorem list_backup_looks_for_the_given_name (list_name : string) (w : World)
    (lists : list ListView) :
  srv_raw_get_lists svc (log w)
    "https://public.api.bsky.app/xrpc/app.bsky.graph.getLists?actor=chaosbengel.de"
  = Ret lists ->
  snd (bskyListBackup.get_list_uri svc list_name w)
  = add_log (RawGet "https://public.api.bsky.app/xrpc/app.bsky.graph.getLists?actor=chaosbengel.de") w
  /\ (forall before l after,
         lists = before ++ l :: after ->
         lv_name l = list_name ->
         (forall x, In x before -> lv_name x <> list_name) ->
         fst (bskyListBackup.get_list_uri svc list_name w) = Ret (lv_uri l))
  /\ ((forall x, In x lists -> lv_name x <> list_name) ->
      fst (bskyListBackup.get_list_uri svc list_name w)
      = Raise (ListNotFoundException
                 ("Liste " +:+ list_name +:+ " konnte nicht gefunden werden."))).
Proof.
  intros Hlists. unfold bskyListBackup.get_list_uri. unfold_monad.
  change (bskyListBackup.BSKY_API_URL +:+ "/xrpc/app.bsky.graph.getLists?actor="
          +:+ bskyListBackup.BSKY_HANDLE) with lists_url.
  unfold lists_url. rewrite Hlists. split; [|split].
  - now destruct (bskylisttool.scan_lists list_name lists).
  - intros before l after -> Hl Hbefore.
    now rewrite (scan_lists_first _ _ _ _ Hl Hbefore).
  - intros Hnone. now rewrite (scan_lists_none _ _ Hnone).
Qed.

(** X21: a run of bskyListBackup.py.  When the login succeeds, the list
    is found and the file can be opened for writing, [main] has sent three
    requests, the login, the lists and one page of members, and the file
    holds the members of that page; when the file cannot be opened, it
    raises what the opening raises after the same three requests; when the
    list is not found it raises ListNotFoundException after two requests;
    in both these cases every file is left as it was. *)
Theorem list_backup_main (name file : string) (password : option string)
    (w : World) (lists : list ListView) :
  let w1 := add_log (Login "chaosbengel.de" password) w in
  let w2 := add_log (RawGet "https://public.api.bsky.app/xrpc/app.bsky.graph.getLists?actor=chaosbengel.de") w1 in
  srv_login svc (log w) "chaosbengel.de" password = Ret tt ->
  srv_raw_get_lists svc (log w1)
    "https://public.api.bsky.app/xrpc/app.bsky.graph.getLists?actor=chaosbengel.de"
  = Ret lists ->
  (forall before l after bskylist,
      lists = before ++ l :: after ->
      lv_name l = name ->
      (forall x, In x before -> lv_name x <> name) ->
      srv_get_list svc (log w2) (lv_uri l) None None = Ret bskylist ->
      (os_open_w svc file = None ->
       bskyListBackup.main svc name file password w
       = (Ret tt,
          {| fs := <[file := one_per_line
                               (map (fun entry => pv_did (li_subject entry))
                                    (gl_items bskylist))]> (fs w);
             log := log w2 ++ [GetList (lv_uri l) None None];
             ticks := ticks w |}))
      /\ (forall e,
             os_open_w svc file = Some e ->
             bskyListBackup.main svc name file password w
             = (Raise e, add_log (GetList (lv_uri l) None None) w2)))
  /\ ((forall x, In x lists -> lv_name x <> name) ->
      exists message,
        bskyListBackup.main svc name file password w
        = (Raise (ListNotFoundException message), w2)).
Proof.
  intros w1 w2 Hlogin Hlists.
  assert (bskyListBackup.main svc name file password w
          = (list_uri ← bskyListBackup.get_list_uri svc name;
             bskyListBackup.backup_list svc list_uri file) w1) as ->.
  { unfold bskyListBackup.main. erewrite bind_ret; [reflexivity|].
    unfold send. change bskyListBackup.BSKY_HANDLE with "chaosbengel.de".
    now rewrite Hlogin. }
  assert (forall o,
             match bskylisttool.scan_lists name lists with
             | Some uri => Ret uri
             | None => Raise (ListNotFoundException
                                ("Liste " +:+ name +:+ " konnte nicht gefunden werden."))
             end = o ->
             bskyListBackup.get_list_uri svc name w1 = (o, w2)) as Hget.
  { intros o <-. unfold bskyListBackup.get_list_uri. unfold_monad.
    change (bskyListBackup.BSKY_API_URL +:+ "/xrpc/app.bsky.graph.getLists?actor="
            +:+ bskyListBackup.BSKY_HANDLE) with lists_url.
    unfold lists_url. rewrite Hlists.
    now destruct (bskylisttool.scan_lists name lists). }
  split.
  - intros before l after bskylist -> Hl Hbefore Hpage.
    erewrite bind_ret.
    2:{ apply Hget. now rewrite (scan_lists_first _ _ _ _ Hl Hbefore). }
    rewrite (list_backup_answered svc _ file w2 bskylist Hpage).
    split; [intros Hopen | intros e Hopen]; now rewrite Hopen.
  - intros Hnone. eexists. apply bind_raise. apply Hget.
    now rewrite (scan_lists_none _ _ Hnone).
Qed.

End ListBackup.

(** ** An output file that cannot be opened *)

Section RefusedOutput.
Import bskylisttool.

Variable svc : Service.

(** X22: when the system refuses to open the output file, each of
    [get_followers], [backup_list] and [get_likes] raises what the opening
    raises, whatever the fuel, before any page is asked for: [get_followers]
    has sent nothing at all, and the other two only what resolved the
    name.  No file is changed. *)
Theorem output_file_refused (fuel : nat) (file : string) (w : World) (e : exn) :
  os_open_w svc file = Some e ->
  (forall handle, get_followers svc fuel handle file w = Some (Raise e, w))
  /\ (forall listname owner uri w0,
         _get_list_uri svc listname owner w = (Ret uri, w0) ->
         backup_list svc fuel listname owner file w
         = Some (Raise e, add_log (GetLists owner None None) w))
  /\ (forall post_url at_uri w0,
         _link_to_at_uri svc post_url w = (Ret at_uri, w0) ->
         get_likes svc fuel post_url file w = Some (Raise e, w0)
         /\ fs w0 = fs w).
Proof.
  intros Hopen. split; [|split].
  - intros handle. unfold get_followers, then_loop, open_w.
    cbn [mret M_ret]. now rewrite Hopen.
  - intros listname owner uri w0 Huri.
    pose proof (get_list_uri_world svc listname owner w) as Hw.
    rewrite Huri in Hw. cbn [snd] in Hw. subst w0.
    unfold backup_list, then_loop, open_w. now rewrite Huri, Hopen.
  - intros post_url at_uri w0 Huri. split.
    + unfold get_likes, then_loop, open_w. now rewrite Huri, Hopen.
    + now destruct (link_to_at_uri_frame svc _ _ _ _ Huri).
Qed.

End RefusedOutput.

(** ** The further properties on the sample services *)

Section FurtherSamples.
Import bskylisttool.

Lemma token_round_trip_witness :
  let w := Sample.world [(".bsky.token", "old"); ("config", "")] in
  let w' := snd (save_token Sample.service Sample.self w) in
  _read_token_from_file (Some ".bsky.token") w' = (Ret (Some "session"), w')
  /\ fs w' !! "config" = Some "".
Proof.
  intros w w'.
  destruct (token_round_trip Sample.service Sample.self ".bsky.token" w eq_refl eq_refl)
    as (_ & _ & Hread & Hfs & _).
  split; [exact (Hread eq_refl)|]. fold w' in Hfs. now rewrite Hfs.
Defined.



Lemma init_sends_at_most_a_login_witness :
  let w := Sample.world [("config", "my_handle = me.example")] in
  exists r,
    is_login r = true
    /\ log (snd (__init__ Sample.service None None (Some "config") (Some ".bsky.token") w))
       = [r].
Proof.
  intros w.
  exact (proj2 (proj2 (proj2 (init_sends_at_most_a_login Sample.service None None
                                (Some "config") (Some ".bsky.token") w)))
           {| bskylisttool.token_file := Some ".bsky.token";
              bskylisttool.handle := "me.example" |} eq_refl).
Defined.


Lemma add_file_unknown_list_witness :
  let w := Sample.world [("subjects.txt", Sample.subjects)] in
  add_file_to_list Sample.service Sample.self "Family" "subjects.txt" w
  = (Raise (ListNotFoundException "List with name Family could not be found."),
     add_log (GetLists "me.example" None None) w).
Proof.
  intros w.
  exact (add_file_unknown_list Sample.service Sample.self "Family" "subjects.txt"
           Sample.subjects w _ eq_refl eq_refl).
Defined.

Lemma add_file_of_dids_witness :
  let w := Sample.world [("dids.txt", Cases.dids)] in
  let run := add_file_to_list Cases.accepting Sample.self "Friends" "dids.txt" w in
  fst run = Ret tt
  /\ map (fun c => (rec_subject (snd c), rec_created_at (snd c))) (creations (log (snd run)))
     = [ ("did:plc:a", "2024-01-01T00:00:00");
         ("did:plc:blocked", "2024-01-01T00:00:01");
         ("did:plc:c", "2024-01-01T00:00:02") ].
Proof.
  intros w run.
  destruct (add_file_of_dids Cases.accepting Sample.self "u2" (fun _ _ _ => eq_refl)
              "Friends" "dids.txt" Cases.dids w
              (add_log (GetLists "me.example" None None) w) eq_refl eq_refl)
    as (Hrun & Hlog & _).
  - vm_compute. repeat constructor.
  - fold run in Hrun, Hlog. split; [exact Hrun|]. now rewrite Hlog.
Defined.

Lemma leading_space_is_resolved_witness :
  bskylisttool.normalize Sample.service (" did:plc:abc" +:+ NL) (Sample.world [])
  = (Ret None, add_log (IdResolve " did:plc:abc") (Sample.world [])).
Proof.
  exact (proj2 (leading_space_is_resolved Sample.service " " ("did:plc:abc" +:+ NL)
                  (Sample.world []) eq_refl eq_refl)).
Defined.

Lemma sample_interrupted (answer : list request -> option string -> outcome page)
    (mk : option string -> request) (h : list request) :
  (forall h, answer h None = Ret {| items := ["did:plc:a"]; next := Some "gone" |}) ->
  (forall h, answer h (Some "gone") = Raise (External "BadRequestError")) ->
  interrupted answer mk h None [ {| items := ["did:plc:a"]; next := Some "gone" |} ]
              (External "BadRequestError").
Proof.
  intros H1 H2. eapply interrupted_later; [apply H1 | reflexivity |].
  apply interrupted_now. apply H2.
Qed.

Lemma pagination_cut_short_witness :
  let w := Sample.world [("out.txt", "old")] in
  let pages := [ {| items := ["did:plc:a"]; next := Some "gone" |} ] in
  let e := External "BadRequestError" in
  cut_short (fun fuel => get_followers Cases.breaking fuel "alice.example" "out.txt")
            (GetFollowers "alice.example" (Some 100)) "out.txt" pages e w w
  /\ cut_short (fun fuel => backup_list Cases.breaking fuel "Friends" "alice.example" "out.txt")
               (GetList "u2" (Some 100)) "out.txt" pages e w
               (add_log (GetLists "alice.example" None None) w)
  /\ cut_short (fun fuel => get_likes Cases.breaking fuel Sample.post_url "out.txt")
               (GetLikes Sample.at_uri (Some 100)) "out.txt" pages e w
               (add_log (ResolveHandle "alice.example") w).
Proof.
  intros w pages e.
  destruct (pagination_cut_short Cases.breaking "out.txt" pages e w eq_refl)
    as (Hfollowers & Hlist & Hlikes).
  split; [|split].
  - apply Hfollowers. now apply sample_interrupted.
  - apply Hlist; [reflexivity|]. now apply sample_interrupted.
  - apply Hlikes; [reflexivity|]. now apply sample_interrupted.
Defined.

Example get_followers_cut_short :
  option_map (fun r => (fst r, fs (snd r) !! "out.txt"))
    (get_followers Cases.breaking 2 "alice.example" "out.txt"
       (Sample.world [("out.txt", "old")]))
  = Some (Raise (External "BadRequestError"), Some ("did:plc:a" +:+ NL)).
Proof. reflexivity. Qed.

Lemma loops_need_a_last_page_witness :
  get_followers Cases.looping 50 "alice.example" "out.txt" (Sample.world []) = None
  /\ backup_list_loop Cases.looping "u2" "out.txt" 50 None (Sample.world []) = None
  /\ get_likes_loop Cases.looping Sample.at_uri "out.txt" 50 None (Sample.world []) = None.
Proof.
  destruct (loops_need_a_last_page Cases.looping "out.txt")
    as (Hfollowers & Hlist & Hlikes).
  split; [|split].
  - apply Hfollowers; [reflexivity|]. intros h c. eexists _, _. split; reflexivity.
  - apply Hlist. intros h c. eexists _, _. split; reflexivity.
  - apply Hlikes. intros h c. eexists _, _. split; reflexivity.
Defined.

Lemma unresolved_name_keeps_the_file_witness :
  let w := Sample.world [("out.txt", "old")] in
  backup_list Sample.service 5 "Family" "alice.example" "out.txt" w
  = Some (Raise (ListNotFoundException "List with name Family could not be found."),
          add_log (GetLists "alice.example" None None) w)
  /\ exists w',
      get_likes Sample.service 5 "https://site/profile/alice.example" "out.txt" w
      = Some (Raise IndexError, w')
      /\ fs w' = fs w.
Proof.
  intros w. split.
  - exact (proj1 (unresolved_name_keeps_the_file Sample.service 5 "out.txt" w _)
             "Family" "alice.example" eq_refl).
  - exact (proj2 (unresolved_name_keeps_the_file Sample.service 5 "out.txt" w _)
             "https://site/profile/alice.example" eq_refl).
Defined.

Lemma mass_lister_looks_for_target_list_witness :
  fst (bskyMassLister.get_list_uri Sample.service "Friends" (Sample.world [])) = Ret "u9".
Proof.
  exact (proj1 (mass_lister_looks_for_target_list Sample.service "Friends"
                  (Sample.world []) _ eq_refl)
           [] {| lv_name := "Hatespam"; lv_uri := "u9" |} [] eq_refl eq_refl
           (fun x (H : In x []) => match H with end)).
Defined.


Lemma list_backup_first_page_only_witness :
  let run := bskyListBackup.backup_list Sample.service "u2" "out.txt" (Sample.world []) in
  srv_get_list Sample.service [] "u2" None (Some "c1")
  = Ret {| gl_items := [ {| li_uri := "i2"; li_subject := Sample.profile "did:plc:b" |} ];
           gl_cursor := None |}
  /\ fs (snd run) !! "out.txt" = Some ("did:plc:a" +:+ NL)
  /\ log (snd run) = [GetList "u2" None None]
  /\ bskyListBackup.backup_list Cases.unwritable "u2" "/nowhere/out.txt" (Sample.world [])
     = (Raise (FileNotFoundError "/nowhere/out.txt"),
        add_log (GetList "u2" None None) (Sample.world [])).
Proof.
  intros run. split; [reflexivity|].
  pose proof (proj1 (list_backup_first_page_only Sample.service "u2" "out.txt"
                       (Sample.world [])) _ eq_refl eq_refl) as Hrun.
  fold run in Hrun. rewrite Hrun. split; [reflexivity|]. split; [reflexivity|].
  exact (proj1 (proj2 (list_backup_first_page_only Cases.unwritable "u2"
                         "/nowhere/out.txt" (Sample.world [])))
           _ _ eq_refl eq_refl).
Defined.

Lemma main_saves_the_token_witness :
  let config := ("./config", "my_handle = me.example") in
  (option_map (fun r => (fst r, fs (snd r) !! "./.bsky.token"))
     (cli.main Sample.service 5 (cli.fetch_likes "https://site/profile/alice.example" "out.txt")
        (Sample.world [config]))
   = Some (Raise IndexError, Some "session"))
  /\ option_map (fun r => fs (snd r) !! "./.bsky.token")
       (cli.main Sample.service 5 cli.fetch_nothing (Sample.world [("./.bsky.token", "old")]))
     = Some (Some "old").
Proof.
  intros config. split.
  - pose proof (proj1 (main_saves_the_token Sample.service 5
                         (cli.fetch_likes "https://site/profile/alice.example" "out.txt")
                         (Sample.world [config])) _ _ _ _ eq_refl eq_refl) as Hrun.
    rewrite Hrun. reflexivity.
  - destruct (proj2 (main_saves_the_token Sample.service 5 cli.fetch_nothing
                       (Sample.world [("./.bsky.token", "old")]))
                _ _ eq_refl) as [Hrun _].
    rewrite Hrun. reflexivity.
Defined.

Lemma main_fetch_without_operation_witness :
  let w := Sample.world [("./config", "my_handle = me.example")] in
  option_map (fun r => (fst r, log (snd r))) (cli.main Sample.service 0 cli.fetch_nothing w)
  = Some (Ret tt, [Login "me.example" (Some "app-pw")]).
Proof.
  intros w.
  destruct (main_fetch_without_operation Sample.service 0 w _ _ eq_refl) as [Hrun _].
  rewrite Hrun. reflexivity.
Defined.

Lemma link_of_a_post_page_witness :
  _link_to_at_uri Sample.service "https://bsky.app/profile/alice.example/post/rkey123"
    (Sample.world [])
  = (Ret "at://did:plc:alice/app.bsky.feed.post/rkey123",
     add_log (ResolveHandle "alice.example") (Sample.world [])).
Proof.
  exact (link_of_a_post_page Sample.service "bsky.app" "profile" "alice.example"
           "post" "rkey123" "did:plc:alice" (Sample.world [])
           eq_refl eq_refl eq_refl eq_refl eq_refl eq_refl).
Defined.

Lemma list_backup_looks_for_the_given_name_witness :
  fst (bskyListBackup.get_list_uri Sample.service "Hatespam" (Sample.world [])) = Ret "u9"
  /\ fst (bskyListBackup.get_list_uri Sample.service "Friends" (Sample.world []))
     = Raise (ListNotFoundException "Liste Friends konnte nicht gefunden werden.").
Proof.
  split.
  - exact (proj1 (proj2 (list_backup_looks_for_the_given_name Sample.service "Hatespam"
                           (Sample.world []) _ eq_refl))
             [] {| lv_name := "Hatespam"; lv_uri := "u9" |} [] eq_refl eq_refl
             (fun x (H : In x []) => match H with end)).
  - apply (proj2 (proj2 (list_backup_looks_for_the_given_name Sample.service "Friends"
                           (Sample.world []) _ eq_refl))).
    intros x [<-|[]]. discriminate.
Defined.

Lemma list_backup_main_witness :
  let run := bskyListBackup.main Sample.service "Hatespam" "out.txt" (Some "app-pw")
               (Sample.world []) in
  fst run = Ret tt
  /\ fs (snd run) !! "out.txt" = Some ("did:plc:a" +:+ NL)
  /\ length (log (snd run)) = 3.
Proof.
  intros run.
  pose proof (proj1 (proj1 (list_backup_main Sample.service "Hatespam" "out.txt"
                              (Some "app-pw") (Sample.world []) _ eq_refl eq_refl)
                       [] {| lv_name := "Hatespam"; lv_uri := "u9" |} [] _ eq_refl eq_refl
                       (fun x (H : In x []) => match H with end) eq_refl)
                eq_refl) as Hrun.
  fold run in Hrun. rewrite Hrun. repeat split; reflexivity.
Defined.

Lemma output_file_refused_witness :
  let w := Sample.world [("out.txt", "old")] in
  let e := FileNotFoundError "/nowhere/out.txt" in
  get_followers Cases.unwritable 0 "alice.example" "/nowhere/out.txt" w = Some (Raise e, w)
  /\ backup_list Cases.unwritable 0 "Friends" "alice.example" "/nowhere/out.txt" w
     = Some (Raise e, add_log (GetLists "alice.example" None None) w)
  /\ get_likes Cases.unwritable 0 Sample.post_url "/nowhere/out.txt" w
     = Some (Raise e, add_log (ResolveHandle "alice.example") w).
Proof.
  intros w e.
  destruct (output_file_refused Cases.unwritable 0 "/nowhere/out.txt" w e eq_refl)
    as (Hfollowers & Hlist & Hlikes).
  split; [|split].
  - apply Hfollowers.
  - exact (Hlist "Friends" "alice.example" "u2" _ eq_refl).
  - exact (proj1 (Hlikes Sample.post_url Sample.at_uri _ eq_refl)).
Defined.

End FurtherSamples.
